(** * Verification of the fuel-stop route planner

    A shallow embedding of [route_planner/services/routing.py] (the class
    [OptimalFuelRouter]) and of the part of [route_planner/views.py] that
    drives it, followed by the properties the specification states about them.

    Conventions of the embedding.
    - A Python [float] is modelled by an exact rational ([Q]); rounding of
      binary64 arithmetic is outside the model.  Comparisons and equalities
      between floats are therefore read up to [Qeq].
    - A [Decimal] is modelled by an exact rational as well: the 28-digit
      context precision of the [decimal] module is outside the model, and
      [Decimal(str(x))] denotes the same number as the float [x].
    - GEOS geometries are external to the repository.  A [LineString] is the
      record of the three operations the router calls on it ([length],
      [project], [interpolate]) together with its coordinate sequence.
    - Everything else that lives outside the repository (database functions,
      the polyline codec, string formatting of numbers, the HTTP provider)
      is gathered in the class [Externals] or passed as an argument.
    - Python exceptions are values of type [exn]; a call that may raise
      returns a [result].  The [while] loop of the planner is a function of
      a number of iterations it may use ([fuel]); it returns [None] when that
      number does not suffice. *)

From Stdlib Require Import QArith Qminmax Lqa Lia ZArith List Sorted Ascii.
From stdpp Require Import base strings gmap.

Import ListNotations.
Local Open Scope Q_scope.

(** ** Numbers *)

Definition pyfloat : Type := Q.
Definition Decimal : Type := Q.

(** [x < y] on floats, as a boolean. *)
Definition Qlt_bool (x y : Q) : bool := negb (Qle_bool y x).

(** [Decimal(str(x))] for a float [x]. *)
Definition Decimal_of_str (x : pyfloat) : Decimal := x.

(** ** Module constants (routing.py, lines 17-26) *)

Definition RANGE_IN_MILES : pyfloat := 500.
Definition MILES_PER_GALLON : pyfloat := 10.
Definition SEARCH_RADIUS_IN_MILES : pyfloat := 10.
Definition SAFETY_MARGIN : pyfloat := 9 # 10.
Definition MAX_TRAVERSIBLE_RANGE : pyfloat := RANGE_IN_MILES * SAFETY_MARGIN.
Definition CACHE_TIMEOUT : Z := 3600.
Definition METERS_PER_MILE : pyfloat := 160934 # 100.
Definition MILES_PER_DEGREE : pyfloat := 69.

(** ** Geometry (django.contrib.gis.geos) *)

(** [Point(x, y)]: x is the longitude, y the latitude. *)
Record Point : Type := mkPoint { x : pyfloat; y : pyfloat }.

Record LineString : Type := mkLineString {
  coords : list Point;
  line_length : pyfloat;               (* .length, in degrees for srid 4326 *)
  project : Point -> pyfloat;          (* distance along the line of the closest point *)
  interpolate : pyfloat -> Point       (* point of the line at a distance along it *)
}.

(** Truth value of a geometry that may be [None]: [None] and the empty
    line string (whose [len] is 0) are false. *)
Definition truthy_line (l : option LineString) : bool :=
  match l with
  | None => false
  | Some g => negb (Nat.eqb (List.length (coords g)) 0)
  end.

(** ** Data classes and the station model *)

Module RouteSegment.
Record t : Type := mk {
  start_point : pyfloat * pyfloat;
  end_point : pyfloat * pyfloat;
  distance : pyfloat;
  polyline : string
}.
End RouteSegment.

Module Route.
Record t : Type := mk {
  segments : list RouteSegment.t;
  distance : pyfloat;
  route_line : LineString
}.
End Route.

(** models.py: one row of the station catalog. *)
Record FuelStation : Type := mkFuelStation {
  name : string;
  address : string;
  city : string;
  state : string;
  price_per_gallon_in_usd : Decimal;
  location : Point
}.

(** A row as returned by the annotated query of
    [_find_stations_along_route]: the model instance with the extra
    attribute [station_fraction]. *)
Record AnnotatedStation : Type := mkAnnotated {
  row : FuelStation;
  station_fraction : pyfloat
}.

Record FuelStop : Type := mkFuelStop {
  station : string;
  distance_from_start : pyfloat;
  coordinates : pyfloat * pyfloat;
  gallons_to_fill : pyfloat;
  cost : Decimal
}.

Record OptimalFuelRouter : Type := mkRouter {
  origin : pyfloat * pyfloat;
  destination : pyfloat * pyfloat;
  route_segments : list RouteSegment.t;
  total_distance : pyfloat;
  route_line : option LineString
}.

(** [OptimalFuelRouter.__init__] *)
Definition init (origin destination : pyfloat * pyfloat) : OptimalFuelRouter :=
  mkRouter origin destination [] 0 None.

(** ** Exceptions and results *)

Inductive exn : Type :=
| ValidationError (message : string)
| ZeroDivisionError
| AttributeError
| IndexError
| ValueError
| PolylineDecodeError.

Inductive result (A : Type) : Type :=
| Ok (a : A)
| Raised (e : exn).
Arguments Ok {A} a.
Arguments Raised {A} e.

(** ** What the router uses and the repository does not define *)

Class Externals : Type := {
  (* str() of a float, as an f-string formats it *)
  str_float : pyfloat -> string;
  str_Decimal : Decimal -> string;
  str_Point : Point -> string;
  (* flexpolyline.decode; None when the codec raises *)
  flexpolyline_decode : string -> option (list (pyfloat * pyfloat));
  (* LineString(points, srid=4326); None when the constructor raises *)
  LineString_init : list Point -> option LineString;
  (* the database function ST_LineLocatePoint(line, location) *)
  ST_LineLocatePoint : LineString -> Point -> pyfloat;
  (* the lookup location__distance_lte=(line, D(mi=radius)) *)
  distance_lte : LineString -> Point -> pyfloat -> bool
}.

(** * The planner *)

Section Planner.
Context `{Ext : Externals}.

(** [FuelStation.__str__] (models.py, line 14), reached through
    [str(next_best_station)]. *)
Definition FuelStation_str (s : FuelStation) : string :=
  (name s ++ " - " ++ str_Point (location s) ++ " - ($"
     ++ str_Decimal (price_per_gallon_in_usd s) ++ "/gal)")%string.

(** [_calculate_fuel_cost] (lines 61-64). *)
Definition _calculate_fuel_cost (gallons : pyfloat) (price_per_gallon : Decimal)
  : Decimal :=
  Decimal_of_str gallons * price_per_gallon.

(** ** Station locator: [_find_stations_along_route] (lines 139-154) *)

(** ORDER BY price_per_gallon_in_usd, as a stable insertion sort. *)
Fixpoint insert_by_price (s : AnnotatedStation) (l : list AnnotatedStation)
  : list AnnotatedStation :=
  match l with
  | [] => [s]
  | t :: l' =>
      if Qle_bool (price_per_gallon_in_usd (row s)) (price_per_gallon_in_usd (row t))
      then s :: t :: l'
      else t :: insert_by_price s l'
  end.

Definition order_by_price (l : list AnnotatedStation) : list AnnotatedStation :=
  fold_right insert_by_price [] l.

Definition annotate (line : LineString) (s : FuelStation) : AnnotatedStation :=
  mkAnnotated s (ST_LineLocatePoint line (location s)).

Definition _find_stations_along_route (self : OptimalFuelRouter)
    (catalog : list FuelStation) : result (list AnnotatedStation) :=
  match route_line self with
  | None => Raised AttributeError
  | Some line =>
      Ok (order_by_price
            (List.filter
               (fun s => distance_lte line (location (row s)) SEARCH_RADIUS_IN_MILES)
               (List.map (annotate line) catalog)))
  end.

(** ** One greedy step: [_find_next_best_fuel_station] (lines 156-205) *)

(** The test of line 176. *)
Definition in_window (current_fraction target_fraction : pyfloat)
    (s : AnnotatedStation) : bool :=
  Qlt_bool current_fraction (station_fraction s)
  && Qle_bool (station_fraction s) target_fraction.

(** The same test as a proposition. *)
Definition within (cf tf : pyfloat) (s : AnnotatedStation) : Prop :=
  cf < station_fraction s /\ station_fraction s <= tf.

(** The price of a candidate and the order of the query. *)
Definition price (s : AnnotatedStation) : Decimal := price_per_gallon_in_usd (row s).

Definition price_le (s t : AnnotatedStation) : Prop := price s <= price t.

(** The [for ... break] loop of lines 174-178. *)
Fixpoint next_best_station (current_fraction target_fraction : pyfloat)
    (stations_along_route : list AnnotatedStation) : option AnnotatedStation :=
  match stations_along_route with
  | [] => None
  | s :: rest =>
      if in_window current_fraction target_fraction s then Some s
      else next_best_station current_fraction target_fraction rest
  end.

Definition current_fraction_of (line : LineString) (current_point : Point) : pyfloat :=
  project line current_point / line_length line.

Definition target_fraction_of (line : LineString) (distance_covered : pyfloat)
  : pyfloat :=
  let target_distance := distance_covered + MAX_TRAVERSIBLE_RANGE in
  let target_point := interpolate line (target_distance / MILES_PER_DEGREE) in
  project line target_point / line_length line.

(** Lines 182-205, for the station the loop has chosen. *)
Definition stop_at (line : LineString) (total_distance remaining_distance : pyfloat)
    (next_best_station : AnnotatedStation) : FuelStop * Point :=
  let distance_from_start :=
    (station_fraction next_best_station * line_length line) * MILES_PER_DEGREE in
  let nearby_point_in_route :=
    interpolate line (distance_from_start / MILES_PER_DEGREE) in
  let remaining_distance_from_station := total_distance - distance_from_start in
  let remaining_fuel_at_station :=
    (RANGE_IN_MILES - (remaining_distance - remaining_distance_from_station))
    / MILES_PER_GALLON in
  let gallons_to_fill :=
    if Qlt_bool remaining_distance_from_station RANGE_IN_MILES
    then (remaining_distance_from_station / MILES_PER_GALLON) - remaining_fuel_at_station
    else (RANGE_IN_MILES / MILES_PER_GALLON) - remaining_fuel_at_station in
  let cost :=
    _calculate_fuel_cost gallons_to_fill
      (price_per_gallon_in_usd (row next_best_station)) in
  (mkFuelStop (FuelStation_str (row next_best_station))
              distance_from_start
              (y (location (row next_best_station)), x (location (row next_best_station)))
              gallons_to_fill
              cost,
   nearby_point_in_route).

Definition _find_next_best_fuel_station (self : OptimalFuelRouter)
    (current_point : Point) (distance_covered remaining_distance : pyfloat)
    (stations_along_route : list AnnotatedStation)
  : result (option (FuelStop * Point)) :=
  match route_line self with
  | None => Raised AttributeError
  | Some line =>
      (* a float division by a zero length raises *)
      if Qeq_bool (line_length line) 0 then Raised ZeroDivisionError
      else
        let current_fraction := current_fraction_of line current_point in
        let target_fraction := target_fraction_of line distance_covered in
        match next_best_station current_fraction target_fraction stations_along_route with
        | None => Ok None
        | Some s => Ok (Some (stop_at line (total_distance self) remaining_distance s))
        end
  end.

(** ** The loop of [find_optimal_fuel_stops] (lines 207-237) *)

Record LoopState : Type := mkState {
  current_point : Point;
  distance_covered : pyfloat;
  optimal_stops : list FuelStop;
  total_refill_cost : Decimal
}.

Inductive step_result : Type :=
| Finished                      (* the [while] test fails or [break] is taken *)
| Failed (e : exn)
| Next (st : LoopState).

(** One evaluation of the [while] test and, when it holds, of the body. *)
Definition step (self : OptimalFuelRouter)
    (stations_along_route : list AnnotatedStation) (st : LoopState) : step_result :=
  if Qlt_bool (distance_covered st) (total_distance self) then
    let remaining_distance := total_distance self - distance_covered st in
    if Qlt_bool remaining_distance MAX_TRAVERSIBLE_RANGE then Finished
    else
      match _find_next_best_fuel_station self (current_point st) (distance_covered st)
              remaining_distance stations_along_route with
      | Raised e => Failed e
      | Ok None =>
          Failed (ValidationError "Not enough fuel stations found along the route")
      | Ok (Some (next_best_fuel_station, nearby_point_in_route)) =>
          Next (mkState nearby_point_in_route
                        (distance_from_start next_best_fuel_station)
                        (optimal_stops st ++ [next_best_fuel_station])
                        (total_refill_cost st + cost next_best_fuel_station))
      end
  else Finished.

Fixpoint loop (fuel : nat) (self : OptimalFuelRouter)
    (stations_along_route : list AnnotatedStation) (st : LoopState)
  : option (result (list FuelStop * Decimal)) :=
  match fuel with
  | O => None
  | S fuel' =>
      match step self stations_along_route st with
      | Finished => Some (Ok (optimal_stops st, total_refill_cost st))
      | Failed e => Some (Raised e)
      | Next st' => loop fuel' self stations_along_route st'
      end
  end.

Definition initial_state (line : LineString) : LoopState :=
  mkState (interpolate line 0) 0 [] 0.

Definition find_optimal_fuel_stops (fuel : nat) (self : OptimalFuelRouter)
    (catalog : list FuelStation) : option (result (list FuelStop * Decimal)) :=
  match route_line self with
  | Some line =>
      if negb (truthy_line (route_line self)) then
        Some (Raised (ValidationError "Route not found"))
      else
        match _find_stations_along_route self catalog with
        | Ok stations_along_route =>
            loop fuel self stations_along_route (initial_state line)
        | Raised e => Some (Raised e)
        end
  | None => Some (Raised (ValidationError "Route not found"))
  end.

(** [n] iterations of the loop that all go on to a next one. *)
Fixpoint iterate (n : nat) (self : OptimalFuelRouter)
    (stations_along_route : list AnnotatedStation) (st : LoopState)
  : option LoopState :=
  match n with
  | O => Some st
  | S n' =>
      match step self stations_along_route st with
      | Next st' => iterate n' self stations_along_route st'
      | _ => None
      end
  end.

(** ** Notions used to state the properties of the loop *)





End Planner.

(** * The route client *)

(** ** The cache (django.core.cache) and the provider (requests) *)

(** An entry is stored with the time at which it expires; [get] answers
    [None] for a missing key and for an expired entry. *)
Definition cache_get (now : Z) (key : string) (c : gmap string (Z * Route.t))
  : option Route.t :=
  match c !! key with
  | Some (expiry, v) => if (now <? expiry)%Z then Some v else None
  | None => None
  end.

Definition cache_set (now : Z) (key : string) (v : Route.t) (timeout : Z)
    (c : gmap string (Z * Route.t)) : gmap string (Z * Route.t) :=
  <[ key := ((now + timeout)%Z, v) ]> c.

(** The decoded body of a routing response:
    [{"routes": [{"sections": [{"polyline": ..., "summary": {"length": ...}}]}]}]. *)
Record SectionJson : Type := mkSection {
  polyline : string;
  summary_length : pyfloat
}.
Record RouteJson : Type := mkRouteJson { sections : list SectionJson }.
Record RouteData : Type := mkRouteData { routes : list RouteJson }.

(** What [requests.get] followed by [response.json()] can give. *)
Inductive HttpResult : Type :=
| RequestFailed                       (* requests.get raises: connection error, timeout *)
| HttpResponse (status_code : Z)
               (json : option RouteData).   (* None: the body is not JSON *)

(** The query parameters that identify a routing request. *)
Record RoutingRequest : Type := mkRequest {
  transportMode : string;
  origin_param : string;
  destination_param : string;
  return_param : string
}.

(** What the router shares with the rest of the process: the cache and the
    requests sent to the provider so far. *)
Record World : Type := mkWorld {
  cache : gmap string (Z * Route.t);
  provider_calls : list RoutingRequest
}.

(** [raise_for_status] raises for a 4xx or 5xx status. *)
Definition is_error_status (status_code : Z) : bool :=
  ((400 <=? status_code) && (status_code <? 600))%Z.

Section RouteClient.
Context `{Ext : Externals}.
(** The provider: the answer to a request. *)
Variable provider : RoutingRequest -> HttpResult.

(** Line 82. *)
Definition cache_key (self : OptimalFuelRouter) : string :=
  ("route_" ++ str_float (fst (origin self)) ++ "_" ++ str_float (snd (origin self))
     ++ "_" ++ str_float (fst (destination self))
     ++ "_" ++ str_float (snd (destination self)))%string.

(** Two routers ask for the same coordinate pair. *)
Definition same_pair (r1 r2 : OptimalFuelRouter) : Prop :=
  fst (origin r1) == fst (origin r2) /\ snd (origin r1) == snd (origin r2)
  /\ fst (destination r1) == fst (destination r2)
  /\ snd (destination r1) == snd (destination r2).

(** Lines 94-100 (the API key is left out). *)
Definition routing_request (self : OptimalFuelRouter) : RoutingRequest :=
  mkRequest "truck"
    (str_float (fst (origin self)) ++ "," ++ str_float (snd (origin self)))%string
    (str_float (fst (destination self)) ++ "," ++ str_float (snd (destination self)))%string
    "polyline,summary".

(** The [for section in ...] loop of lines 108-122.  The segments appended
    to [self.route_segments] stay appended when an iteration raises, so the
    list is returned next to the result. *)
Fixpoint process_sections (todo : list SectionJson)
    (route_segments : list RouteSegment.t)
    (coordinates : list (pyfloat * pyfloat)) (current_distance : pyfloat)
  : list RouteSegment.t * result (list (pyfloat * pyfloat) * pyfloat) :=
  match todo with
  | [] => (route_segments, Ok (coordinates, current_distance))
  | section :: rest =>
      match flexpolyline_decode (polyline section) with
      | None => (route_segments, Raised PolylineDecodeError)
      | Some section_coords =>
          let distance := summary_length section / METERS_PER_MILE in
          match section_coords with
          | [] => (route_segments, Raised IndexError)
          | first :: _ =>
              process_sections rest
                (route_segments
                   ++ [RouteSegment.mk first (List.last section_coords first)
                         distance (polyline section)])
                (coordinates ++ section_coords)
                (current_distance + distance)
          end
      end
  end.

Definition use_cached (self : OptimalFuelRouter) (cached_route : Route.t)
  : OptimalFuelRouter :=
  mkRouter (origin self) (destination self)
    (Route.segments cached_route) (Route.distance cached_route)
    (Some (Route.route_line cached_route)).

(** [get_route] (lines 80-137), called at time [now]. *)
Definition get_route (now : Z) (w : World) (self : OptimalFuelRouter)
  : result bool * OptimalFuelRouter * World :=
  let cache_key := cache_key self in
  match cache_get now cache_key (cache w) with
  | Some cached_route => (Ok true, use_cached self cached_route, w)
  | None =>
      let w1 := mkWorld (cache w) (provider_calls w ++ [routing_request self]) in
      match provider (routing_request self) with
      | RequestFailed => (Ok false, self, w1)
      | HttpResponse status_code body =>
          if is_error_status status_code then (Ok false, self, w1)
          else
            match body with
            | None => (Ok false, self, w1)       (* JSONDecodeError *)
            | Some route_data =>
                match routes route_data with
                | [] => (Raised IndexError, self, w1)
                | route0 :: _ =>
                    match process_sections (sections route0) (route_segments self) [] 0 with
                    | (segs, Raised e) =>
                        (Raised e,
                         mkRouter (origin self) (destination self) segs
                           (total_distance self) (route_line self),
                         w1)
                    | (segs, Ok (coordinates, current_distance)) =>
                        match LineString_init
                                (List.map (fun c => mkPoint (snd c) (fst c)) coordinates) with
                        | None =>
                            (Raised ValueError,
                             mkRouter (origin self) (destination self) segs
                               current_distance (route_line self),
                             w1)
                        | Some line =>
                            (Ok true,
                             mkRouter (origin self) (destination self) segs
                               current_distance (Some line),
                             mkWorld
                               (cache_set now cache_key
                                  (Route.mk segs current_distance line)
                                  CACHE_TIMEOUT (cache w1))
                               (provider_calls w1))
                        end
                    end
                end
            end
      end
  end.

End RouteClient.

(** * The view: [get_optimal_route] (views.py) *)

Record StopJson : Type := mkStopJson {
  json_station : string;
  json_distance_from_start : pyfloat;
  json_coordinates : pyfloat * pyfloat;
  json_gallons_needed : pyfloat;
  json_cost : string
}.

Inductive JsonResponse : Type :=
| ErrorResponse (error : string) (status : Z)
| DataResponse (total_distance : pyfloat) (total_refill_cost : string)
               (fuel_stops : list StopJson) (route_polyline : list string).

Section View.
Context `{Ext : Externals}.
Variable provider : RoutingRequest -> HttpResult.

Definition stop_json (stop : FuelStop) : StopJson :=
  mkStopJson (station stop) (distance_from_start stop) (coordinates stop)
    (gallons_to_fill stop) ("$ " ++ str_Decimal (cost stop))%string.

(** A query parameter is [None] when it is missing or is not a number
    ([float] raises [TypeError] or [ValueError]). *)
Definition get_optimal_route (fuel : nat) (now : Z) (catalog : list FuelStation)
    (w : World) (origin_lat origin_lng dest_lat dest_lng : option pyfloat)
  : option (result JsonResponse * World) :=
  match origin_lat, origin_lng, dest_lat, dest_lng with
  | Some olat, Some olng, Some dlat, Some dlng =>
      let router := init (olat, olng) (dlat, dlng) in
      match get_route provider now w router with
      | (Raised e, _, w') => Some (Raised e, w')
      | (Ok false, _, w') =>
          Some (Ok (ErrorResponse "Could not calculate route" 400), w')
      | (Ok true, router, w') =>
          match find_optimal_fuel_stops fuel router catalog with
          | None => None
          | Some (Raised (ValidationError message)) =>
              Some (Ok (ErrorResponse message 400), w')
          | Some (Raised e) => Some (Raised e, w')
          | Some (Ok (optimal_stops, total_refill_cost)) =>
              Some (Ok (DataResponse (total_distance router)
                          (str_Decimal total_refill_cost)
                          (List.map stop_json optimal_stops)
                          (List.map RouteSegment.polyline (route_segments router))),
                    w')
          end
      end
  | _, _, _, _ => Some (Ok (ErrorResponse "Invalid coordinates provided" 400), w)
  end.

End View.

(** * Notions used to state further properties of the planner *)


(** The sum of the distances of a list of segments. *)
Definition segments_distance (l : list RouteSegment.t) : pyfloat :=
  List.fold_right (fun seg acc => RouteSegment.distance seg + acc) 0 l.

(** * The import command (management/commands/import_fuel_stations.py)

    The CSV file is the list of its rows, each with the five columns the
    command reads; the table of stations is the list of its rows, in the
    order they were saved; what the command writes to its output is a list
    of messages.  [time.sleep] has no counterpart.  Errors that the database
    raises on [save] are outside the model. *)

Module ImportFuelStations.

Record CsvRow : Type := mkRow {
  Truckstop_Name : string;
  Address : string;
  City : string;
  State : string;
  Retail_Price : string
}.

(** One item of a geocoding answer: [item["position"]]. *)
Record Position : Type := mkPosition { lat : pyfloat; lng : pyfloat }.

(** What [requests.get] gives for a geocoding request: an exception that
    carries no response (connection error, timeout), or a response with its
    status and the ["items"] of its body ([None]: the body is not JSON). *)
Inductive GeocodeHttp : Type :=
| NoResponse
| Response (status_code : Z) (items : option (list Position)).

(** The exceptions that leave the command. *)
Inductive error : Type :=
| HTTPError (status_code : Z)     (* the RequestException raised again *)
| AttributeError                  (* e.response is None in the handler *)
| InvalidOperation.               (* Decimal() of a text that is no number *)

Inductive Output : Type :=
| Processing (index rows_left : Z)
| Geocoding (q : string)
| ErrorGeocoding (name : string)
| SkippingDuplicate (name : string)
| CouldNotGeocode (name : string)
| Imported (station : FuelStation).

(** [str.strip] and [Decimal] of a text ([None] when it raises). *)
Class Text : Type := {
  strip : string -> string;
  Decimal_of_string : string -> option Decimal
}.

Section Command.
Context `{T : Text}.
(** The geocoding service: the answer to a query. *)
Variable geocoder : string -> GeocodeHttp.

(** Line 21. *)
Definition geocode_query (row : CsvRow) : string :=
  (strip (Truckstop_Name row) ++ ", " ++ strip (Address row) ++ ", "
     ++ strip (City row) ++ ", " ++ strip (State row) ++ ", USA")%string.

(** [_geocode_address] (lines 20-42): what it writes, and the exception it
    raises or the value it returns. *)
Definition _geocode_address (row : CsvRow)
  : list Output * (error + option (pyfloat * pyfloat)) :=
  let address := geocode_query row in
  let out := [Geocoding address] in
  match geocoder address with
  | NoResponse => (out, inl AttributeError)
  | Response status_code body =>
      if is_error_status status_code then
        (* raise_for_status raises an HTTPError that carries the response *)
        if (status_code =? 429)%Z then (out, inl (HTTPError status_code))
        else (out ++ [ErrorGeocoding (Truckstop_Name row)], inr None)
      else
        match body with
        | None => (out, inl AttributeError)    (* JSONDecodeError has no response *)
        | Some [] => (out, inr None)
        | Some (item :: _) => (out, inr (Some (lat item, lng item)))
        end
  end.

(** The query of lines 53-55. *)
Definition station_exists (db : list FuelStation) (row : CsvRow) : bool :=
  List.existsb
    (fun s => String.eqb (name s) (Truckstop_Name row)
              && String.eqb (address s) (Address row)
              && String.eqb (city s) (City row)
              && String.eqb (state s) (State row))
    db.

(** The station of lines 67-74. *)
Definition station_of (row : CsvRow) (price : Decimal) (latitude longitude : pyfloat)
  : FuelStation :=
  mkFuelStation (strip (Truckstop_Name row)) (strip (Address row))
    (strip (City row)) (strip (State row)) price (mkPoint longitude latitude).

(** The loop of lines 50-76 from row number [index] on. *)
Fixpoint handle_rows (row_count index : Z) (rows : list CsvRow)
    (db : list FuelStation) (out : list Output)
  : list FuelStation * list Output * option error :=
  match rows with
  | [] => (db, out, None)
  | row :: rest =>
      let out := out ++ [Processing index (row_count - index - 1)] in
      if station_exists db row then
        handle_rows row_count (index + 1) rest db
          (out ++ [SkippingDuplicate (Truckstop_Name row)])
      else
        match _geocode_address row with
        | (written, inl e) => (db, out ++ written, Some e)
        | (written, inr None) =>
            handle_rows row_count (index + 1) rest db
              (out ++ written ++ [CouldNotGeocode (Truckstop_Name row)])
        | (written, inr (Some (latitude, longitude))) =>
            match Decimal_of_string (strip (Retail_Price row)) with
            | None => (db, out ++ written, Some InvalidOperation)
            | Some price =>
                let station := station_of row price latitude longitude in
                handle_rows row_count (index + 1) rest (db ++ [station])
                  (out ++ written ++ [Imported station])
            end
        end
  end.

(** [handle] (lines 44-76); [row_count] is the number of lines of the file. *)
Definition handle (row_count : Z) (rows : list CsvRow) (db : list FuelStation)
  : list FuelStation * list Output * option error :=
  handle_rows row_count 0 rows db [].


End Command.

End ImportFuelStations.

(** * A concrete setting: a straight route along the equator

    Used to evaluate the definitions on explicit inputs. *)

(** The line from (0, 0) to (len, 0), measured in degrees. *)
Definition straight_line (len : pyfloat) : LineString :=
  mkLineString [mkPoint 0 0; mkPoint len 0] len
    (fun p => Qmax 0 (Qmin (x p) len))
    (fun d => mkPoint (Qmax 0 (Qmin d len)) 0).

(** Numbers are written as a reduced fraction in unary, sign first:
    [3/2] is [+111/11].  The text identifies the number and contains no
    underscore, as the text Python prints for a float does. *)
Fixpoint tally (n : nat) : string :=
  match n with
  | O => EmptyString
  | S n' => String "1"%char (tally n')
  end.

Definition show_Q (q : Q) : string :=
  let r := Qred q in
  ((if (Qnum r <? 0)%Z then "-" else "+")
     ++ tally (Z.abs_nat (Qnum r)) ++ "/" ++ tally (Pos.to_nat (Qden r)))%string.

(** Whether a character occurs in a text. *)
Fixpoint has_char (c : ascii) (s : string) : bool :=
  match s with
  | EmptyString => false
  | String d s' => if Ascii.eqb c d then true else has_char c s'
  end.

(** The database measures a station against the line with the line's own
    projection; every station counts as near the route; every polyline
    but the empty one decodes to the two ends of the line of 10 degrees. *)
Definition equator : Externals := {|
  str_float := show_Q;
  str_Decimal := show_Q;
  str_Point := fun p => ("POINT (" ++ show_Q (x p) ++ " " ++ show_Q (y p) ++ ")")%string;
  flexpolyline_decode :=
    fun s => if String.eqb s "" then None else Some [(0, 0); (0, 10)];
  LineString_init :=
    fun pts =>
      match pts with
      | [] => Some (mkLineString [] 0 (fun _ => 0) (fun _ => mkPoint 0 0))
      | [_] => None
      | p :: _ => Some (straight_line (x (List.last pts p)))
      end;
  ST_LineLocatePoint := fun l p => project l p / line_length l;
  distance_lte := fun _ _ _ => true
|}.

(** A station on the equator at [miles] from the start, by the router's
    rule of 69 miles to the degree. *)
Definition station_at (label : string) (miles : pyfloat) (usd : Decimal) : FuelStation :=
  mkFuelStation label "" "" "" usd (mkPoint (miles / MILES_PER_DEGREE) 0).

(** A router that holds a straight route of [miles] miles. *)
Definition router_with_route (miles : pyfloat) : OptimalFuelRouter :=
  mkRouter (0, 0) (0, miles / MILES_PER_DEGREE) [] miles
    (Some (straight_line (miles / MILES_PER_DEGREE))).

(** Three stations, listed out of price order. *)
Definition three_stations : list FuelStation :=
  [station_at "A" 276 (35 # 10); station_at "B" 138 3; station_at "C" 690 (32 # 10)].

(** The candidates of a router in this setting, and the state of its loop
    after [n] iterations. *)
Definition candidates_of (self : OptimalFuelRouter) (catalog : list FuelStation)
  : list AnnotatedStation :=
  match _find_stations_along_route (Ext := equator) self catalog with
  | Ok l => l
  | Raised _ => []
  end.

Definition state_after (n : nat) (self : OptimalFuelRouter) (catalog : list FuelStation)
  : option LoopState :=
  match route_line self with
  | Some line =>
      iterate (Ext := equator) n self (candidates_of self catalog) (initial_state line)
  | None => None
  end.

(** The state a run is in after [n] iterations, the state it starts in when
    it does not get that far. *)
Definition state_at (n : nat) (self : OptimalFuelRouter) (catalog : list FuelStation)
  : LoopState :=
  match state_after n self catalog, route_line self with
  | Some st, _ => st
  | None, Some line => initial_state line
  | None, None => mkState (mkPoint 0 0) 0 [] 0
  end.

(** A provider that answers every request with one section of 1609340
    metres, and one that finds no route. *)
Definition one_section_provider (_ : RoutingRequest) : HttpResult :=
  HttpResponse 200
    (Some (mkRouteData [mkRouteJson [mkSection "BFoz5xJ67i1B1B7PzIhaxL7Y" 1609340]])).

Definition no_route_provider (_ : RoutingRequest) : HttpResult :=
  HttpResponse 200 (Some (mkRouteData [])).

Definition empty_world : World := mkWorld ∅ [].

(** The router and the world after a first fetch, at time 0, of the route
    from (0, 0) to (0, 10) from [one_section_provider]. *)
Definition fetched_router : OptimalFuelRouter :=
  mkRouter (0, 0) (0, 10)
    [RouteSegment.mk (0, 0) (0, 10) (1609340 / METERS_PER_MILE)
       "BFoz5xJ67i1B1B7PzIhaxL7Y"]
    (0 + 1609340 / METERS_PER_MILE)
    (Some (straight_line 10)).

Definition world_after_fetch : World :=
  mkWorld
    (cache_set 0 (cache_key (Ext := equator) fetched_router)
       (Route.mk (route_segments fetched_router) (total_distance fetched_router)
          (straight_line 10))
       CACHE_TIMEOUT ∅)
    [routing_request (Ext := equator) fetched_router].


Definition no_section_provider (_ : RoutingRequest) : HttpResult :=
  HttpResponse 200 (Some (mkRouteData [mkRouteJson []])).

(** ** The import command in a concrete setting *)

(** [strip] for the space character only. *)
Fixpoint lstrip_spaces (s : string) : string :=
  match s with
  | EmptyString => EmptyString
  | String c rest => if Ascii.eqb c " " then lstrip_spaces rest else s
  end.

Fixpoint rstrip_spaces (s : string) : string :=
  match s with
  | EmptyString => EmptyString
  | String c rest =>
      match rstrip_spaces rest with
      | EmptyString => if Ascii.eqb c " " then EmptyString else String c EmptyString
      | kept => String c kept
      end
  end.

Definition strip_spaces (s : string) : string := rstrip_spaces (lstrip_spaces s).

(** Prices in whole dollars: a non-empty text of digits. *)
Fixpoint whole_dollars (acc : Z) (s : string) : option Z :=
  match s with
  | EmptyString => Some acc
  | String c rest =>
      let d := (Z.of_nat (nat_of_ascii c) - 48)%Z in
      if ((0 <=? d) && (d <=? 9))%Z then whole_dollars (10 * acc + d) rest else None
  end.

Definition plain_text : ImportFuelStations.Text := {|
  ImportFuelStations.strip := strip_spaces;
  ImportFuelStations.Decimal_of_string :=
    fun s => match s with
             | EmptyString => None
             | _ => option_map inject_Z (whole_dollars 0 s)
             end
|}.

(** A geocoder that limits the rate of one query, finds nothing for
    another and places every other address at (36, -96). *)
Definition tulsa_geocoder (q : string) : ImportFuelStations.GeocodeHttp :=
  if String.eqb q "Busy Stop, 1 Main St, Tulsa, OK, USA"
  then ImportFuelStations.Response 429 None
  else if String.eqb q "Lost Stop, 2 Main St, Tulsa, OK, USA"
  then ImportFuelStations.Response 200 (Some [])
  else ImportFuelStations.Response 200
         (Some [ImportFuelStations.mkPosition 36 (-96);
                ImportFuelStations.mkPosition 0 0]).

Definition row_a : ImportFuelStations.CsvRow :=
  ImportFuelStations.mkRow "Alpha Stop" "3 Main St" "Tulsa" "OK" "3".
Definition row_padded : ImportFuelStations.CsvRow :=
  ImportFuelStations.mkRow "Beta Stop " "4 Main St" "Tulsa" "OK" " 4 ".
Definition row_busy : ImportFuelStations.CsvRow :=
  ImportFuelStations.mkRow "Busy Stop" "1 Main St" "Tulsa" "OK" "3".
Definition row_lost : ImportFuelStations.CsvRow :=
  ImportFuelStations.mkRow "Lost Stop" "2 Main St" "Tulsa" "OK" "3".

(** * Properties *)

(** ** Comparisons *)

Lemma Qlt_bool_iff (a b : Q) : Qlt_bool a b = true <-> a < b.
Proof.
  unfold Qlt_bool. rewrite negb_true_iff. split.
  - intros H. apply Qnot_le_lt. intros Hle.
    apply Qle_bool_iff in Hle. congruence.
  - intros H. destruct (Qle_bool b a) eqn:E; [|reflexivity].
    apply Qle_bool_iff in E. lra.
Qed.

Lemma Qlt_bool_false_iff (a b : Q) : Qlt_bool a b = false <-> b <= a.
Proof.
  unfold Qlt_bool. rewrite negb_false_iff. apply Qle_bool_iff.
Qed.

Lemma Qle_bool_false_iff (a b : Q) : Qle_bool a b = false <-> b < a.
Proof.
  rewrite <- Qlt_bool_iff. unfold Qlt_bool.
  destruct (Qle_bool a b); simpl; split; congruence.
Qed.

Lemma MAX_TRAVERSIBLE_RANGE_value : MAX_TRAVERSIBLE_RANGE == 450.
Proof. reflexivity. Qed.

Section PlannerFacts.
Context `{Ext : Externals}.

(** ** The window test and the selection loop *)

Lemma in_window_iff cf tf s : in_window cf tf s = true <-> within cf tf s.
Proof.
  unfold in_window, within.
  rewrite andb_true_iff, Qlt_bool_iff, Qle_bool_iff. reflexivity.
Qed.

Lemma in_window_false_iff cf tf s : in_window cf tf s = false <-> ~ within cf tf s.
Proof.
  rewrite <- in_window_iff. destruct (in_window cf tf s); split; congruence.
Qed.

Lemma next_best_station_Some cf tf l s :
  next_best_station cf tf l = Some s ->
  exists before after,
    l = before ++ s :: after
    /\ within cf tf s
    /\ List.Forall (fun t => ~ within cf tf t) before.
Proof.
  induction l as [|t l IH]; simpl; [discriminate|].
  destruct (in_window cf tf t) eqn:E.
  - intros [= <-]. exists [], l. repeat split; try constructor.
    + apply in_window_iff in E. apply E.
    + apply in_window_iff in E. apply E.
  - intros H. destruct (IH H) as (before & after & -> & Hs & Hb).
    exists (t :: before), after. repeat split; try apply Hs.
    constructor; [now apply in_window_false_iff | exact Hb].
Qed.

Lemma next_best_station_None cf tf l :
  next_best_station cf tf l = None <->
  List.Forall (fun t => ~ within cf tf t) l.
Proof.
  induction l as [|t l IH]; simpl.
  - split; [constructor | reflexivity].
  - destruct (in_window cf tf t) eqn:E.
    + split; [discriminate|]. intros H. inversion H; subst.
      apply in_window_iff in E. contradiction.
    + rewrite IH. split.
      * intros H. constructor; [now apply in_window_false_iff | exact H].
      * intros H. now inversion H.
Qed.

(** ** The price order of the candidates *)

Lemma insert_by_price_In s l t :
  List.In t (insert_by_price s l) <-> t = s \/ List.In t l.
Proof.
  induction l as [|u l IH]; simpl.
  - intuition.
  - destruct (Qle_bool _ _); simpl; [intuition|]. rewrite IH. intuition.
Qed.

Lemma insert_by_price_sorted s l :
  StronglySorted price_le l -> StronglySorted price_le (insert_by_price s l).
Proof.
  induction l as [|u l IH]; simpl; intros Hs.
  - constructor; constructor.
  - inversion Hs as [|? ? Hl Hu]; subst.
    destruct (Qle_bool _ _) eqn:E.
    + apply Qle_bool_iff in E. constructor; [exact Hs|].
      constructor; [exact E|].
      rewrite List.Forall_forall in *. intros t Ht.
      specialize (Hu t Ht). unfold price_le, price in *. lra.
    + apply Qle_bool_false_iff in E. constructor; [now apply IH|].
      rewrite List.Forall_forall in *. intros t Ht.
      apply insert_by_price_In in Ht. destruct Ht as [->|Ht].
      * unfold price_le, price. lra.
      * now apply Hu.
Qed.

Lemma order_by_price_sorted l : StronglySorted price_le (order_by_price l).
Proof.
  induction l as [|s l IH]; simpl.
  - constructor.
  - now apply insert_by_price_sorted.
Qed.

Lemma order_by_price_In l t : List.In t (order_by_price l) <-> List.In t l.
Proof.
  induction l as [|s l IH]; simpl; [reflexivity|].
  rewrite insert_by_price_In, IH. intuition.
Qed.

Lemma find_stations_sorted self catalog stations :
  _find_stations_along_route self catalog = Ok stations ->
  StronglySorted price_le stations.
Proof.
  unfold _find_stations_along_route.
  destruct (route_line self); [|discriminate].
  intros [= <-]. apply order_by_price_sorted.
Qed.

(** In a list sorted by price, the first station of the window is a
    cheapest station of the window. *)
Lemma first_in_window_cheapest cf tf before s after :
  StronglySorted price_le (before ++ s :: after) ->
  List.Forall (fun t => ~ within cf tf t) before ->
  forall t, List.In t (before ++ s :: after) -> within cf tf t -> price s <= price t.
Proof.
  induction before as [|b before IH]; simpl; intros Hs Hb t Ht Hw.
  - inversion Hs as [|? ? _ Hall]; subst. destruct Ht as [<-|Ht]; [lra|].
    rewrite List.Forall_forall in Hall. now apply Hall.
  - inversion Hs as [|? ? Hs' _]; subst. inversion Hb; subst.
    destruct Ht as [<-|Ht]; [contradiction|]. now apply IH.
Qed.

End PlannerFacts.

Section StepFacts.
Context `{Ext : Externals}.

(** ** Inversion of one iteration *)

Lemma find_next_inv self cp dc rem stations res :
  _find_next_best_fuel_station self cp dc rem stations = Ok res ->
  exists line,
    route_line self = Some line
    /\ ~ line_length line == 0
    /\ match res with
       | None =>
           next_best_station (current_fraction_of line cp)
             (target_fraction_of line dc) stations = None
       | Some r =>
           exists s,
             next_best_station (current_fraction_of line cp)
               (target_fraction_of line dc) stations = Some s
             /\ r = stop_at line (total_distance self) rem s
       end.
Proof.
  unfold _find_next_best_fuel_station.
  destruct (route_line self) as [line|]; [|discriminate].
  destruct (Qeq_bool (line_length line) 0) eqn:E; [discriminate|].
  intros H. exists line. split; [reflexivity|]. split.
  - intros Hz. apply Qeq_bool_iff in Hz. congruence.
  - destruct (next_best_station _ _ stations) as [s|].
    + injection H as <-. exists s. split; reflexivity.
    + injection H as <-. reflexivity.
Qed.

Lemma step_Next_inv self stations st st' :
  step self stations st = Next st' ->
  exists line s,
    route_line self = Some line
    /\ ~ line_length line == 0
    /\ distance_covered st < total_distance self
    /\ MAX_TRAVERSIBLE_RANGE <= total_distance self - distance_covered st
    /\ next_best_station (current_fraction_of line (current_point st))
         (target_fraction_of line (distance_covered st)) stations = Some s
    /\ let r := stop_at line (total_distance self)
                  (total_distance self - distance_covered st) s in
       st' = mkState (snd r) (distance_from_start (fst r))
               (optimal_stops st ++ [fst r])
               (total_refill_cost st + cost (fst r)).
Proof.
  unfold step.
  destruct (Qlt_bool (distance_covered st) (total_distance self)) eqn:E1;
    [|discriminate].
  destruct (Qlt_bool (total_distance self - distance_covered st)
              MAX_TRAVERSIBLE_RANGE) eqn:E2; [discriminate|].
  destruct (_find_next_best_fuel_station _ _ _ _ _) as [[[stop pt]|]|e] eqn:E3;
    try discriminate.
  intros [= <-].
  apply find_next_inv in E3. destruct E3 as (line & Hl & Hz & s & Hs & Hr).
  exists line, s. apply Qlt_bool_iff in E1. apply Qlt_bool_false_iff in E2.
  repeat split; try assumption.
  cbv zeta. rewrite <- Hr. reflexivity.
Qed.

Lemma step_Finished_iff self stations st :
  step self stations st = Finished <->
  (total_distance self <= distance_covered st
   \/ total_distance self - distance_covered st < MAX_TRAVERSIBLE_RANGE).
Proof.
  unfold step.
  destruct (Qlt_bool (distance_covered st) (total_distance self)) eqn:E1.
  - apply Qlt_bool_iff in E1.
    destruct (Qlt_bool (total_distance self - distance_covered st)
                MAX_TRAVERSIBLE_RANGE) eqn:E2.
    + apply Qlt_bool_iff in E2. split; [now right | reflexivity].
    + apply Qlt_bool_false_iff in E2. split.
      * destruct (_find_next_best_fuel_station _ _ _ _ _) as [[[? ?]|]|?];
          discriminate.
      * intros [H|H]; lra.
  - apply Qlt_bool_false_iff in E1. split; [now left | reflexivity].
Qed.

(** ** What a run of the loop returns *)

(** The left-to-right [Decimal] sum started at [acc]: the value of
    [acc] after [acc += c] for each [c] in turn. *)
Lemma loop_result fuel self stations st stops total :
  loop fuel self stations st = Some (Ok (stops, total)) ->
  exists new,
    stops = optimal_stops st ++ new
    /\ total = List.fold_left Qplus (List.map cost new) (total_refill_cost st).
Proof.
  revert st. induction fuel as [|fuel IH]; simpl; intros st; [discriminate|].
  destruct (step self stations st) as [|e|st1] eqn:E.
  - intros [= <- <-]. exists []. rewrite List.app_nil_r. split; reflexivity.
  - discriminate.
  - intros H. destruct (IH _ H) as (new & -> & ->).
    apply step_Next_inv in E.
    destruct E as (line & s & _ & _ & _ & _ & _ & ->). cbv zeta. simpl.
    eexists (_ :: new). rewrite <- List.app_assoc. split; reflexivity.
Qed.


End StepFacts.

Section GeometryFacts.
Context `{Ext : Externals}.

(** ** Arithmetic of fractions *)




(** ** One iteration on a simple line *)





End GeometryFacts.

Section LoopFacts.
Context `{Ext : Externals}.

(** ** Runs of the loop on a simple line *)


Lemma iterate_loop n k self stations st st' :
  iterate n self stations st = Some st' ->
  loop (n + k) self stations st = loop k self stations st'.
Proof.
  revert st. induction n as [|n IH]; simpl; intros st.
  - now intros [= <-].
  - destruct (step self stations st) as [| |st1]; try discriminate.
    apply IH.
Qed.



End LoopFacts.

(** ** The concrete setting *)


(** ** Texts *)

Lemma has_char_app (c : ascii) (a b : string) :
  has_char c (a ++ b)%string = has_char c a || has_char c b.
Proof.
  induction a as [|d a IH]; simpl; [reflexivity|].
  destruct (Ascii.eqb c d); [reflexivity | exact IH].
Qed.

(** A text without the separator is determined by what precedes the
    first separator. *)
Lemma app_sep_inj (c : ascii) (a a' r r' : string) :
  has_char c a = false -> has_char c a' = false ->
  (a ++ String c r)%string = (a' ++ String c r')%string ->
  a = a' /\ r = r'.
Proof.
  revert a'. induction a as [|d a IH]; intros [|d' a']; simpl.
  - intros _ _ [= ->]. split; reflexivity.
  - intros _ H [= <- _]. rewrite Ascii.eqb_refl in H. discriminate.
  - intros H _ [= -> _]. rewrite Ascii.eqb_refl in H. discriminate.
  - intros H H' [= <- Heq].
    destruct (Ascii.eqb c d); [discriminate|].
    destruct (IH a' H H' Heq) as [-> ->]. split; reflexivity.
Qed.

Lemma tally_inj (n m : nat) : tally n = tally m -> n = m.
Proof.
  revert m. induction n as [|n IH]; intros [|m]; simpl; try discriminate.
  - reflexivity.
  - intros [= H]. f_equal. now apply IH.
Qed.

Lemma tally_has_char (c : ascii) (n : nat) :
  Ascii.eqb c "1" = false -> has_char c (tally n) = false.
Proof.
  intros Hc. induction n as [|n IH]; simpl; [reflexivity|]. now rewrite Hc.
Qed.

Lemma show_Q_no_underscore (q : Q) : has_char "_" (show_Q q) = false.
Proof.
  unfold show_Q. rewrite !has_char_app. simpl.
  rewrite !tally_has_char by reflexivity.
  destruct (Qnum (Qred q) <? 0)%Z; reflexivity.
Qed.

Lemma show_Q_inj (a b : Q) : show_Q a = show_Q b -> a == b.
Proof.
  unfold show_Q. intros H.
  assert (Hred : Qred a = Qred b).
  { destruct (Qred a) as [na da], (Qred b) as [nb db]. simpl in H.
    destruct (Z.ltb_spec na 0), (Z.ltb_spec nb 0); simpl in H;
      injection H as H; try discriminate;
      apply app_sep_inj in H; try (apply tally_has_char; reflexivity);
      destruct H as [Hn Hd]; apply tally_inj in Hn; apply tally_inj in Hd;
      apply Pos2Nat.inj in Hd; subst; f_equal; lia. }
  rewrite <- (Qred_correct a), <- (Qred_correct b), Hred. reflexivity.
Qed.

Section RouteClientFacts.
Context `{Ext : Externals}.
Variable provider : RoutingRequest -> HttpResult.

(** ** The cache *)

Lemma cache_get_set_same (now t : Z) (key : string) (v : Route.t)
    (c : gmap string (Z * Route.t)) :
  (t < now + CACHE_TIMEOUT)%Z ->
  cache_get t key (cache_set now key v CACHE_TIMEOUT c) = Some v.
Proof.
  intros Ht. unfold cache_get, cache_set. rewrite lookup_insert_eq.
  destruct (Z.ltb_spec t (now + CACHE_TIMEOUT)); [reflexivity | lia].
Qed.

Lemma cache_get_set_expired (now t : Z) (key : string) (v : Route.t)
    (c : gmap string (Z * Route.t)) :
  (now + CACHE_TIMEOUT <= t)%Z ->
  cache_get t key (cache_set now key v CACHE_TIMEOUT c) = None.
Proof.
  intros Ht. unfold cache_get, cache_set. rewrite lookup_insert_eq.
  destruct (Z.ltb_spec t (now + CACHE_TIMEOUT)); [lia | reflexivity].
Qed.

Lemma cache_get_set_other (now t : Z) (key key' : string) (v : Route.t)
    (c : gmap string (Z * Route.t)) :
  key <> key' ->
  cache_get t key' (cache_set now key v CACHE_TIMEOUT c) = cache_get t key' c.
Proof.
  intros Hne. unfold cache_get, cache_set. now rewrite lookup_insert_ne.
Qed.

(** ** [get_route] case by case *)

Lemma get_route_hit now w self cached :
  cache_get now (cache_key self) (cache w) = Some cached ->
  get_route provider now w self = (Ok true, use_cached self cached, w).
Proof. intros H. unfold get_route. rewrite H. reflexivity. Qed.

(** A miss sends exactly one request, and the cache changes only when the
    call returns [True], by the entry of the router's own key. *)
Lemma get_route_miss now w self :
  cache_get now (cache_key self) (cache w) = None ->
  let '(r, self', w') := get_route provider now w self in
  provider_calls w' = provider_calls w ++ [routing_request self]
  /\ match r with
     | Ok true =>
         exists line,
           route_line self' = Some line
           /\ cache w' =
                cache_set now (cache_key self)
                  (Route.mk (route_segments self') (total_distance self') line)
                  CACHE_TIMEOUT (cache w)
     | _ => cache w' = cache w
     end.
Proof.
  intros H. unfold get_route. rewrite H.
  destruct (provider (routing_request self)) as [|status body];
    [split; reflexivity|].
  destruct (is_error_status status); [split; reflexivity|].
  destruct body as [route_data|]; [|split; reflexivity].
  destruct (routes route_data) as [|route0 rest]; [split; reflexivity|].
  destruct (process_sections _ _ _ _) as [segs [[coordinates current_distance]|e]];
    [|split; reflexivity].
  destruct (LineString_init _) as [line|]; [|split; reflexivity].
  split; [reflexivity|]. exists line. split; reflexivity.
Qed.

(** The failures that [requests] reports are answered by [False]. *)
Lemma get_route_request_failure now w self :
  cache_get now (cache_key self) (cache w) = None ->
  (provider (routing_request self) = RequestFailed
   \/ (exists status body,
         provider (routing_request self) = HttpResponse status body
         /\ (is_error_status status = true \/ body = None))) ->
  get_route provider now w self
  = (Ok false, self, mkWorld (cache w) (provider_calls w ++ [routing_request self])).
Proof.
  intros H Hfail. unfold get_route. rewrite H.
  destruct Hfail as [->|(status & body & -> & [Hs| ->])]; [reflexivity| |].
  - rewrite Hs. reflexivity.
  - destruct (is_error_status status); reflexivity.
Qed.

(** ** The cache key *)

Lemma cache_key_inj (r1 r2 : OptimalFuelRouter) :
  (forall a, has_char "_" (str_float a) = false) ->
  cache_key r1 = cache_key r2 ->
  str_float (fst (origin r1)) = str_float (fst (origin r2))
  /\ str_float (snd (origin r1)) = str_float (snd (origin r2))
  /\ str_float (fst (destination r1)) = str_float (fst (destination r2))
  /\ str_float (snd (destination r1)) = str_float (snd (destination r2)).
Proof.
  intros Hsep. unfold cache_key. simpl. intros [= H].
  apply app_sep_inj in H; try apply Hsep. destruct H as [H1 H].
  apply app_sep_inj in H; try apply Hsep. destruct H as [H2 H].
  apply app_sep_inj in H; try apply Hsep. destruct H as [H3 H4].
  repeat split; assumption.
Qed.

End RouteClientFacts.

(** * The claims *)

(** C1.  At every iteration of the planner that goes on to a next one, the
    station of the stop it records is the first station, in the
    price-ascending list of candidates, whose fraction is greater than the
    fraction of the current position and at most the fraction of the target
    (the current distance plus [MAX_TRAVERSIBLE_RANGE], which is 450): no
    station outside that window is selected, the stations listed before the
    selected one are outside it, and the selected one is a cheapest station
    of the window. *)
Theorem step_selects_cheapest_in_window `{Ext : Externals}
    (self : OptimalFuelRouter) (catalog : list FuelStation)
    (stations : list AnnotatedStation) (line : LineString) (st st' : LoopState) :
  route_line self = Some line ->
  _find_stations_along_route self catalog = Ok stations ->
  step self stations st = Next st' ->
  MAX_TRAVERSIBLE_RANGE == 450
  /\ StronglySorted price_le stations
  /\ exists before s after,
       let cf := current_fraction_of line (current_point st) in
       let tf := target_fraction_of line (distance_covered st) in
       stations = before ++ s :: after
       /\ within cf tf s
       /\ List.Forall (fun t => ~ within cf tf t) before
       /\ (forall t, List.In t stations -> within cf tf t -> price s <= price t)
       /\ optimal_stops st' =
            optimal_stops st
              ++ [fst (stop_at line (total_distance self)
                         (total_distance self - distance_covered st) s)].
Proof.
  intros Hline Hstations Hstep.
  split; [reflexivity|].
  pose proof (find_stations_sorted _ _ _ Hstations) as Hsorted.
  split; [exact Hsorted|].
  apply step_Next_inv in Hstep.
  destruct Hstep as (line' & s & Hline' & _ & _ & _ & Hsel & ->).
  rewrite Hline in Hline'. injection Hline' as <-.
  apply next_best_station_Some in Hsel.
  destruct Hsel as (before & after & -> & Hs & Hbefore).
  exists before, s, after. cbv zeta. repeat split; try apply Hs; try assumption.
  now apply first_in_window_cheapest.
Qed.

Lemma step_selects_cheapest_in_window_witness :
  let self := router_with_route 1000 in
  let line := straight_line (1000 / MILES_PER_DEGREE) in
  let stations := candidates_of self three_stations in
  let st := initial_state line in
  let st' := state_at 1 self three_stations in
  MAX_TRAVERSIBLE_RANGE == 450
  /\ StronglySorted price_le stations
  /\ exists before s after,
       let cf := current_fraction_of line (current_point st) in
       let tf := target_fraction_of line (distance_covered st) in
       stations = before ++ s :: after
       /\ within cf tf s
       /\ List.Forall (fun t => ~ within cf tf t) before
       /\ (forall t, List.In t stations -> within cf tf t -> price s <= price t)
       /\ optimal_stops st' =
            optimal_stops st
              ++ [fst (stop_at (Ext := equator) line (total_distance self)
                         (total_distance self - distance_covered st) s)].
Proof.
  intros self line stations st st'.
  apply (step_selects_cheapest_in_window (Ext := equator) self three_stations
           stations line st st'); vm_compute; reflexivity.
Defined.

(** C2.  For the station selected at an iteration, with
    [remaining_to_destination] the total distance less the distance covered
    when the iteration starts, the stop records
    [remaining_fuel_at_station = (500 - (remaining_to_destination -
    remaining_distance_from_station)) / 10], with the unscaled range of
    500 miles, and [gallons_to_fill] is
    [remaining_distance_from_station / 10 - remaining_fuel_at_station] when
    [remaining_distance_from_station < 500] and
    [500 / 10 - remaining_fuel_at_station] otherwise. *)
Theorem fill_quantity_formula `{Ext : Externals}
    (self : OptimalFuelRouter) (stations : list AnnotatedStation) (st st' : LoopState) :
  step self stations st = Next st' ->
  exists stop,
    optimal_stops st' = optimal_stops st ++ [stop]
    /\ let remaining_to_destination := total_distance self - distance_covered st in
       let remaining_distance_from_station :=
         total_distance self - distance_from_start stop in
       let remaining_fuel_at_station :=
         (500 - (remaining_to_destination - remaining_distance_from_station)) / 10 in
       (remaining_distance_from_station < 500 ->
        gallons_to_fill stop
        = remaining_distance_from_station / 10 - remaining_fuel_at_station)
       /\ (500 <= remaining_distance_from_station ->
           gallons_to_fill stop = 500 / 10 - remaining_fuel_at_station).
Proof.
  intros Hstep. apply step_Next_inv in Hstep.
  destruct Hstep as (line & s & _ & _ & _ & _ & _ & ->). cbv zeta.
  eexists. split; [reflexivity|]. simpl.
  destruct (Qlt_bool _ RANGE_IN_MILES) eqn:E.
  - split; [reflexivity|]. apply Qlt_bool_iff in E.
    unfold RANGE_IN_MILES in E. intros H. lra.
  - split; [|reflexivity]. apply Qlt_bool_false_iff in E.
    unfold RANGE_IN_MILES in E. intros H. lra.
Qed.

Lemma fill_quantity_formula_witness :
  let self := router_with_route 1000 in
  let stations := candidates_of self three_stations in
  let st := state_at 0 self three_stations in
  let st' := state_at 1 self three_stations in
  exists stop,
    optimal_stops st' = optimal_stops st ++ [stop]
    /\ let remaining_to_destination := total_distance self - distance_covered st in
       let remaining_distance_from_station :=
         total_distance self - distance_from_start stop in
       let remaining_fuel_at_station :=
         (500 - (remaining_to_destination - remaining_distance_from_station)) / 10 in
       (remaining_distance_from_station < 500 ->
        gallons_to_fill stop
        = remaining_distance_from_station / 10 - remaining_fuel_at_station)
       /\ (500 <= remaining_distance_from_station ->
           gallons_to_fill stop = 500 / 10 - remaining_fuel_at_station).
Proof.
  intros self stations st st'.
  apply (fill_quantity_formula (Ext := equator) self stations st st').
  vm_compute. reflexivity.
Defined.








(** C7.  When, after any number of iterations, the loop has to go on (the
    remaining distance is not below the safe range) and no candidate lies in
    the window of the step, [find_optimal_fuel_stops] raises the
    [ValidationError] "Not enough fuel stations found along the route": the
    stops and the cost gathered so far are not returned, and the view
    answers with that error message and status 400. *)
Theorem no_station_in_window_fails `{Ext : Externals}
    (provider : RoutingRequest -> HttpResult)
    (n : nat) (self : OptimalFuelRouter) (catalog : list FuelStation)
    (stations : list AnnotatedStation) (line : LineString) (st : LoopState) :
  route_line self = Some line ->
  truthy_line (route_line self) = true ->
  ~ line_length line == 0 ->
  _find_stations_along_route self catalog = Ok stations ->
  iterate n self stations (initial_state line) = Some st ->
  distance_covered st < total_distance self ->
  MAX_TRAVERSIBLE_RANGE <= total_distance self - distance_covered st ->
  List.Forall
    (fun t => ~ within (current_fraction_of line (current_point st))
                  (target_fraction_of line (distance_covered st)) t) stations ->
  let failure :=
    ValidationError "Not enough fuel stations found along the route" in
  (forall fuel, (n < fuel)%nat ->
     find_optimal_fuel_stops fuel self catalog = Some (Raised failure))
  /\ (forall fuel now w w' olat olng dlat dlng, (n < fuel)%nat ->
        get_route provider now w (init (olat, olng) (dlat, dlng)) = (Ok true, self, w') ->
        get_optimal_route provider fuel now catalog w
          (Some olat) (Some olng) (Some dlat) (Some dlng)
        = Some (Ok (ErrorResponse
                      "Not enough fuel stations found along the route" 400), w')).
Proof.
  intros Hline Htruthy Hlen Hstations Hiter Hlt Hmax Hnone failure.
  assert (Hstep : step self stations st = Failed failure).
  { unfold step.
    apply Qlt_bool_iff in Hlt. rewrite Hlt.
    apply Qlt_bool_false_iff in Hmax. rewrite Hmax.
    unfold _find_next_best_fuel_station. rewrite Hline.
    destruct (Qeq_bool (line_length line) 0) eqn:E.
    - apply Qeq_bool_iff in E. contradiction.
    - apply next_best_station_None in Hnone. rewrite Hnone. reflexivity. }
  assert (Hrun : forall fuel, (n < fuel)%nat ->
            find_optimal_fuel_stops fuel self catalog = Some (Raised failure)).
  { intros fuel Hfuel. unfold find_optimal_fuel_stops.
    rewrite Hline in *. rewrite Htruthy, Hstations. simpl.
    replace fuel with (n + S (fuel - S n))%nat by lia.
    rewrite (iterate_loop _ _ _ _ _ _ Hiter). simpl. rewrite Hstep. reflexivity. }
  split; [exact Hrun|].
  intros fuel now w w' olat olng dlat dlng Hfuel Hroute.
  unfold get_optimal_route. rewrite Hroute, (Hrun fuel Hfuel). reflexivity.
Qed.

Lemma no_station_in_window_fails_witness :
  let self := router_with_route 1000 in
  let catalog := [station_at "B" 138 3] in
  let failure :=
    ValidationError "Not enough fuel stations found along the route" in
  (exists st, state_after 1 self catalog = Some st
              /\ List.length (optimal_stops st) = 1%nat)
  /\ forall fuel, (1 < fuel)%nat ->
       find_optimal_fuel_stops (Ext := equator) fuel self catalog
       = Some (Raised failure).
Proof.
  intros self catalog failure. split.
  - eexists. split; [vm_compute; reflexivity | reflexivity].
  - refine (proj1 (no_station_in_window_fails (Ext := equator)
                     (fun _ => RequestFailed) 1 self catalog
                     (candidates_of self catalog)
                     (straight_line (1000 / MILES_PER_DEGREE))
                     (state_at 1 self catalog) _ _ _ _ _ _ _ _)).
    + reflexivity.
    + reflexivity.
    + vm_compute. discriminate.
    + reflexivity.
    + vm_compute. reflexivity.
    + vm_compute. reflexivity.
    + vm_compute. discriminate.
    + repeat constructor. intros [H1 _]. vm_compute in H1. discriminate.
Defined.

(** C10.  The total cost returned is the sum of the costs of the stops
    returned, added from the left starting at [Decimal("0")]; it is that
    zero when the stop list is empty. *)
Theorem total_cost_is_sum_of_stop_costs `{Ext : Externals}
    (fuel : nat) (self : OptimalFuelRouter) (catalog : list FuelStation)
    (stops : list FuelStop) (total : Decimal) :
  find_optimal_fuel_stops fuel self catalog = Some (Ok (stops, total)) ->
  total = List.fold_left Qplus (List.map cost stops) 0
  /\ (stops = [] -> total = 0).
Proof.
  unfold find_optimal_fuel_stops.
  destruct (route_line self) as [line|]; [|discriminate].
  destruct (negb (truthy_line (Some line))); [discriminate|].
  destruct (_find_stations_along_route self catalog) as [stations|e]; [|discriminate].
  intros Hrun. apply loop_result in Hrun. destruct Hrun as (new & -> & ->).
  simpl. split; [reflexivity|]. intros ->. reflexivity.
Qed.

Lemma total_cost_is_sum_of_stop_costs_witness :
  exists stops total,
    find_optimal_fuel_stops (Ext := equator) 4 (router_with_route 1000) three_stations
    = Some (Ok (stops, total))
    /\ List.length stops = 3%nat
    /\ total = List.fold_left Qplus (List.map cost stops) 0.
Proof.
  destruct (find_optimal_fuel_stops (Ext := equator) 4 (router_with_route 1000)
              three_stations) as [[[stops total]|e]|] eqn:E;
    try (vm_compute in E; discriminate).
  exists stops, total. split; [reflexivity|]. split.
  - vm_compute in E. injection E as <- _. reflexivity.
  - apply (total_cost_is_sum_of_stop_costs (Ext := equator) 4
             (router_with_route 1000) three_stations stops total E).
Defined.

(** C4: what the code does on a route of 460 miles with one station 100
    miles from the start.  The stop is made because 460 is not below the
    safe range of 450; the tank, reckoned with the range of 500, still holds
    more than the 360 miles to the destination need, and the stop is
    returned with a negative quantity and a negative cost. *)
Lemma negative_fill_on_460_mile_route :
  exists stop total,
    find_optimal_fuel_stops (Ext := equator) 2 (router_with_route 460)
      [station_at "A" 100 3]
    = Some (Ok ([stop], total))
    /\ distance_from_start stop == 100
    /\ gallons_to_fill stop == -4
    /\ cost stop == -12
    /\ total == -12.
Proof.
  eexists. eexists. split; [vm_compute; reflexivity|].
  repeat split; vm_compute; reflexivity.
Qed.

(** C8: what the code does when the provider answers with status 200 and
    no route.  [route_data["routes"][0]] raises [IndexError], which the
    [except requests.exceptions.RequestException] clause does not catch:
    [get_route] raises instead of returning [False], and the view lets the
    exception through.  The cache is left as it was. *)
Lemma empty_result_raises_IndexError :
  let self := init (0, 0) (0, 10) in
  get_route (Ext := equator) no_route_provider 0 empty_world self
  = (Raised IndexError, self,
     mkWorld ∅ [routing_request (Ext := equator) self])
  /\ get_optimal_route (Ext := equator) no_route_provider 1 0 three_stations
       empty_world (Some 0) (Some 0) (Some 0) (Some 10)
     = Some (Raised IndexError,
             mkWorld ∅ [routing_request (Ext := equator) self]).
Proof. split; reflexivity. Qed.

(** C9.  Where floats are printed without an underscore and distinct floats
    are printed differently: a call whose key is in the cache and has not
    expired returns the cached route and sends no request; after a call
    that fetched and cached a route, every call for the same coordinate pair
    made less than [CACHE_TIMEOUT] = 3600 seconds later returns that same
    route, sends no request and leaves the cache as it is; two routers have
    the same key only when their coordinate pairs are the same, so that an
    entry cached for one pair never answers a request for another; and a
    call that misses sends one request. *)
Theorem cached_route_is_reused `{Ext : Externals}
    (provider : RoutingRequest -> HttpResult) :
  (forall a b, str_float a = str_float b -> a == b) ->
  (forall a, has_char "_" (str_float a) = false) ->
  (forall now w self cached,
     cache_get now (cache_key self) (cache w) = Some cached ->
     get_route provider now w self = (Ok true, use_cached self cached, w))
  /\ (forall t0 w self self' w' t other,
        cache_get t0 (cache_key self) (cache w) = None ->
        get_route provider t0 w self = (Ok true, self', w') ->
        origin other = origin self ->
        destination other = destination self ->
        (t < t0 + 3600)%Z ->
        get_route provider t w' other
        = (Ok true,
           mkRouter (origin other) (destination other) (route_segments self')
             (total_distance self') (route_line self'),
           w'))
  /\ (forall r1 r2, cache_key r1 = cache_key r2 -> same_pair r1 r2)
  /\ (forall r1 r2 t0 t v c,
        ~ same_pair r1 r2 ->
        cache_get t (cache_key r2) (cache_set t0 (cache_key r1) v CACHE_TIMEOUT c)
        = cache_get t (cache_key r2) c)
  /\ (forall now w self,
        cache_get now (cache_key self) (cache w) = None ->
        provider_calls (snd (get_route provider now w self))
        = provider_calls w ++ [routing_request self]).
Proof.
  intros Hinj Hsep.
  assert (Hkey : forall r1 r2, cache_key r1 = cache_key r2 -> same_pair r1 r2).
  { intros r1 r2 H. apply cache_key_inj in H; [|exact Hsep].
    destruct H as (H1 & H2 & H3 & H4).
    repeat split; apply Hinj; assumption. }
  split; [|split; [|split; [|split]]].
  - intros now w self cached. apply get_route_hit.
  - intros t0 w self self' w' t other Hmiss Hrun Ho Hd Ht.
    pose proof (get_route_miss provider t0 w self Hmiss) as H.
    rewrite Hrun in H. destruct H as [_ (line & Hline & Hcache)].
    assert (Hsame : cache_key other = cache_key self)
      by (unfold cache_key; rewrite Ho, Hd; reflexivity).
    rewrite (get_route_hit provider t w' other
               (Route.mk (route_segments self') (total_distance self') line)).
    + unfold use_cached. simpl. rewrite Hline. reflexivity.
    + rewrite Hsame, Hcache. apply cache_get_set_same. exact Ht.
  - exact Hkey.
  - intros r1 r2 t0 t v c Hdiff. apply cache_get_set_other.
    intros H. apply Hdiff. now apply Hkey.
  - intros now w self Hmiss.
    pose proof (get_route_miss provider now w self Hmiss) as H.
    destruct (get_route provider now w self) as [[r self'] w']. apply H.
Qed.

Lemma cached_route_is_reused_witness :
  let self := init (0, 0) (0, 10) in
  get_route (Ext := equator) one_section_provider 0 empty_world self
  = (Ok true, fetched_router, world_after_fetch)
  /\ total_distance fetched_router == 1000
  /\ get_route (Ext := equator) one_section_provider 3599 world_after_fetch self
     = (Ok true, fetched_router, world_after_fetch).
Proof.
  intros self.
  assert (E : get_route (Ext := equator) one_section_provider 0 empty_world self
              = (Ok true, fetched_router, world_after_fetch)) by reflexivity.
  split; [exact E|]. split; [reflexivity|].
  destruct (cached_route_is_reused (Ext := equator) one_section_provider
              show_Q_inj show_Q_no_underscore) as (_ & Hreuse & _).
  apply (Hreuse 0%Z empty_world self fetched_router world_after_fetch 3599%Z self);
    reflexivity || exact E.
Defined.

(** * Further properties of the planner *)

Section MorePlannerFacts.
Context `{Ext : Externals}.



Lemma last_cons {A} (a d : A) (l : list A) : List.last (a :: l) d = List.last l a.
Proof.
  revert a d. induction l as [|b l IH]; intros a d; [reflexivity|].
  change (List.last (a :: b :: l) d) with (List.last (b :: l) d).
  rewrite !IH. reflexivity.
Qed.

(** Every stop of a run was built by [stop_at] from a candidate. *)
Lemma loop_stops_from_candidates fuel self stations line st stops total :
  route_line self = Some line ->
  loop fuel self stations st = Some (Ok (stops, total)) ->
  exists new,
    stops = optimal_stops st ++ new
    /\ List.Forall
         (fun stop => exists s rem,
            List.In s stations
            /\ stop = fst (stop_at line (total_distance self) rem s)) new.
Proof.
  intros Hline. revert st.
  induction fuel as [|fuel IH]; simpl; intros st; [discriminate|].
  destruct (step self stations st) as [|e|st1] eqn:E.
  - intros [= <- <-]. exists []. rewrite List.app_nil_r. split; constructor.
  - discriminate.
  - intros Hrun. destruct (IH _ Hrun) as (new & -> & Hall).
    apply step_Next_inv in E.
    destruct E as (line' & s & Hline' & _ & _ & _ & Hsel & ->).
    rewrite Hline in Hline'. injection Hline' as <-.
    apply next_best_station_Some in Hsel.
    destruct Hsel as (before & after & -> & _ & _).
    cbv zeta. simpl. eexists (_ :: new). rewrite <- List.app_assoc.
    split; [reflexivity|]. constructor; [|exact Hall].
    eexists s, _. split; [|reflexivity].
    apply List.in_or_app. right. now left.
Qed.

(** Where a run that returns stops has come to a halt. *)
Lemma loop_final_distance fuel self stations st stops total :
  loop fuel self stations st = Some (Ok (stops, total)) ->
  exists new,
    stops = optimal_stops st ++ new
    /\ total_distance self
       - List.last (List.map distance_from_start new) (distance_covered st)
       < MAX_TRAVERSIBLE_RANGE.
Proof.
  revert st. induction fuel as [|fuel IH]; simpl; intros st; [discriminate|].
  destruct (step self stations st) as [|e|st1] eqn:E.
  - intros [= <- <-]. exists []. rewrite List.app_nil_r. split; [reflexivity|].
    simpl. apply step_Finished_iff in E.
    assert (Hmax : MAX_TRAVERSIBLE_RANGE == 450) by reflexivity.
    destruct E as [E|E]; lra.
  - discriminate.
  - intros Hrun. destruct (IH _ Hrun) as (new & -> & Hlast).
    apply step_Next_inv in E.
    destruct E as (line & s & _ & _ & _ & _ & _ & ->).
    cbv zeta in *. simpl in *. eexists (_ :: new). rewrite <- List.app_assoc.
    split; [reflexivity|].
    change (List.map distance_from_start (?a :: new))
      with (distance_from_start a :: List.map distance_from_start new).
    rewrite last_cons. exact Hlast.
Qed.



End MorePlannerFacts.



(** X2.  Every stop that [find_optimal_fuel_stops] returns describes one of
    the candidates: its label is the text of the station, its coordinates
    are the latitude and the longitude of the station, its distance from the
    start is the station's fraction times the length of the line times 69,
    and its cost is its quantity times the price of the station. *)
Theorem stops_describe_candidates `{Ext : Externals}
    (fuel : nat) (self : OptimalFuelRouter) (catalog : list FuelStation)
    (line : LineString) (stations : list AnnotatedStation)
    (stops : list FuelStop) (total : Decimal) :
  route_line self = Some line ->
  _find_stations_along_route self catalog = Ok stations ->
  find_optimal_fuel_stops fuel self catalog = Some (Ok (stops, total)) ->
  List.Forall
    (fun stop => exists s,
       List.In s stations
       /\ station stop = FuelStation_str (row s)
       /\ coordinates stop = (y (location (row s)), x (location (row s)))
       /\ distance_from_start stop
          = station_fraction s * line_length line * MILES_PER_DEGREE
       /\ cost stop = gallons_to_fill stop * price_per_gallon_in_usd (row s))
    stops.
Proof.
  intros Hline Hstations. unfold find_optimal_fuel_stops.
  rewrite Hline, Hstations.
  destruct (negb (truthy_line (Some line))); [discriminate|].
  intros Hrun.
  destruct (loop_stops_from_candidates _ _ _ _ _ _ _ Hline Hrun) as (new & -> & Hall).
  simpl. rewrite List.Forall_forall in *. intros stop Hstop.
  destruct (Hall stop Hstop) as (s & rem & Hin & ->).
  exists s. repeat split; try reflexivity. exact Hin.
Qed.

Lemma stops_describe_candidates_witness :
  exists stops total,
    find_optimal_fuel_stops (Ext := equator) 4 (router_with_route 1000) three_stations
    = Some (Ok (stops, total))
    /\ List.length stops = 3%nat
    /\ List.Forall
         (fun stop => exists s,
            List.In s (candidates_of (router_with_route 1000) three_stations)
            /\ station stop = FuelStation_str (Ext := equator) (row s)
            /\ coordinates stop = (y (location (row s)), x (location (row s)))
            /\ distance_from_start stop
               = station_fraction s
                 * line_length (straight_line (1000 / MILES_PER_DEGREE))
                 * MILES_PER_DEGREE
            /\ cost stop = gallons_to_fill stop * price_per_gallon_in_usd (row s))
         stops.
Proof.
  destruct (find_optimal_fuel_stops (Ext := equator) 4 (router_with_route 1000)
              three_stations) as [[[stops total]|e]|] eqn:E;
    try (vm_compute in E; discriminate).
  exists stops, total. split; [reflexivity|]. split.
  - vm_compute in E. injection E as <- _. reflexivity.
  - apply (stops_describe_candidates (Ext := equator) 4 (router_with_route 1000)
             three_stations (straight_line (1000 / MILES_PER_DEGREE))
             (candidates_of (router_with_route 1000) three_stations) stops total);
      [reflexivity | reflexivity | exact E].
Defined.








(** X6.  When [find_optimal_fuel_stops] returns, less than 450 miles are
    left after the last stop (after the start when there is no stop). *)
Theorem last_leg_is_within_safe_range `{Ext : Externals}
    (fuel : nat) (self : OptimalFuelRouter) (catalog : list FuelStation)
    (stops : list FuelStop) (total : Decimal) :
  find_optimal_fuel_stops fuel self catalog = Some (Ok (stops, total)) ->
  total_distance self - List.last (List.map distance_from_start stops) 0 < 450.
Proof.
  unfold find_optimal_fuel_stops.
  destruct (route_line self) as [line|]; [|discriminate].
  destruct (negb (truthy_line (Some line))); [discriminate|].
  destruct (_find_stations_along_route self catalog) as [stations|e]; [|discriminate].
  intros Hrun. apply loop_final_distance in Hrun.
  destruct Hrun as (new & -> & Hlast). simpl in *.
  assert (Hmax : MAX_TRAVERSIBLE_RANGE == 450) by reflexivity. lra.
Qed.

Lemma last_leg_is_within_safe_range_witness :
  exists stops total,
    find_optimal_fuel_stops (Ext := equator) 4 (router_with_route 1000) three_stations
    = Some (Ok (stops, total))
    /\ List.length stops = 3%nat
    /\ 1000 - List.last (List.map distance_from_start stops) 0 < 450.
Proof.
  destruct (find_optimal_fuel_stops (Ext := equator) 4 (router_with_route 1000)
              three_stations) as [[[stops total]|e]|] eqn:E;
    try (vm_compute in E; discriminate).
  exists stops, total. split; [reflexivity|]. split.
  - vm_compute in E. injection E as <- _. reflexivity.
  - apply (last_leg_is_within_safe_range (Ext := equator) 4 (router_with_route 1000)
             three_stations stops total E).
Defined.

(** X7.  On a route line of length zero whose total distance is at least
    450 miles, the first division by the length raises: the planner fails
    with [ZeroDivisionError], whatever the catalog, and the view does not
    turn it into an answer. *)
Theorem zero_length_line_raises `{Ext : Externals}
    (provider : RoutingRequest -> HttpResult)
    (fuel : nat) (self : OptimalFuelRouter) (catalog : list FuelStation)
    (line : LineString) :
  route_line self = Some line ->
  truthy_line (route_line self) = true ->
  line_length line == 0 ->
  450 <= total_distance self ->
  find_optimal_fuel_stops (S fuel) self catalog = Some (Raised ZeroDivisionError)
  /\ (forall now w w' olat olng dlat dlng,
        get_route provider now w (init (olat, olng) (dlat, dlng)) = (Ok true, self, w') ->
        get_optimal_route provider (S fuel) now catalog w
          (Some olat) (Some olng) (Some dlat) (Some dlng)
        = Some (Raised ZeroDivisionError, w')).
Proof.
  intros Hline Htruthy Hzero Hlong.
  assert (Hrun : find_optimal_fuel_stops (S fuel) self catalog
                 = Some (Raised ZeroDivisionError)).
  { unfold find_optimal_fuel_stops. rewrite Hline in *. rewrite Htruthy. simpl.
    unfold _find_stations_along_route. rewrite Hline. simpl.
    unfold step. simpl.
    assert (Hmax : MAX_TRAVERSIBLE_RANGE == 450) by reflexivity.
    assert (H1 : Qlt_bool 0 (total_distance self) = true)
      by (apply Qlt_bool_iff; lra).
    assert (H2 : Qlt_bool (total_distance self - 0) MAX_TRAVERSIBLE_RANGE = false)
      by (apply Qlt_bool_false_iff; lra).
    rewrite H1, H2. unfold _find_next_best_fuel_station. rewrite Hline.
    apply Qeq_bool_iff in Hzero. rewrite Hzero. reflexivity. }
  split; [exact Hrun|].
  intros now w w' olat olng dlat dlng Hroute.
  unfold get_optimal_route. rewrite Hroute, Hrun. reflexivity.
Qed.

Lemma zero_length_line_raises_witness :
  find_optimal_fuel_stops (Ext := equator) 1
    (mkRouter (0, 0) (0, 0) [] 500 (Some (straight_line 0))) three_stations
  = Some (Raised ZeroDivisionError).
Proof.
  refine (proj1 (zero_length_line_raises (Ext := equator) no_route_provider 0
                   (mkRouter (0, 0) (0, 0) [] 500 (Some (straight_line 0)))
                   three_stations (straight_line 0) _ _ _ _)).
  - reflexivity.
  - reflexivity.
  - reflexivity.
  - vm_compute. discriminate.
Defined.

(** * Further properties of the route client *)

Section MoreRouteClientFacts.
Context `{Ext : Externals}.
Variable provider : RoutingRequest -> HttpResult.

(** What the loop over the sections has appended when it ends. *)
Lemma process_sections_ok todo segs coords dist segs' coords' dist' :
  process_sections todo segs coords dist = (segs', Ok (coords', dist')) ->
  exists new,
    segs' = segs ++ new
    /\ List.map RouteSegment.polyline new = List.map polyline todo
    /\ List.map RouteSegment.distance new
       = List.map (fun section => summary_length section / METERS_PER_MILE) todo
    /\ dist' == dist + segments_distance new.
Proof.
  revert segs coords dist.
  induction todo as [|section todo IH]; simpl; intros segs coords dist.
  - intros [= <- <- <-]. exists []. rewrite List.app_nil_r.
    repeat split; try reflexivity. simpl. lra.
  - destruct (flexpolyline_decode (polyline section)) as [[|first cs]|];
      try discriminate.
    intros H. destruct (IH _ _ _ H) as (new & -> & Hp & Hd & Hsum).
    eexists (_ :: new). rewrite <- List.app_assoc. split; [reflexivity|].
    simpl. rewrite Hp, Hd. repeat split; try reflexivity.
    rewrite Hsum. unfold segments_distance. simpl. lra.
Qed.


End MoreRouteClientFacts.

(** X8.  A call of [get_route] leaves every cache entry other than the one
    of its own key as it is, and leaves the whole cache as it is unless it
    returns [True]; it sends at most one request. *)
Theorem get_route_writes_only_its_own_key `{Ext : Externals}
    (provider : RoutingRequest -> HttpResult)
    (now : Z) (w : World) (self : OptimalFuelRouter) :
  let r := get_route provider now w self in
  (fst (fst r) <> Ok true -> cache (snd r) = cache w)
  /\ (forall key, key <> cache_key self -> cache (snd r) !! key = cache w !! key)
  /\ (provider_calls (snd r) = provider_calls w
      \/ provider_calls (snd r) = provider_calls w ++ [routing_request self]).
Proof.
  cbv zeta.
  destruct (cache_get now (cache_key self) (cache w)) as [cached|] eqn:E.
  - rewrite (get_route_hit provider now w self cached E). simpl.
    repeat split; try reflexivity. now left.
  - pose proof (get_route_miss provider now w self E) as H.
    destruct (get_route provider now w self) as [[r self'] w']. simpl.
    destruct H as [Hcalls Hcache]. split; [|split].
    + intros Hr. destruct r as [[|]|e]; try exact Hcache. congruence.
    + intros key Hkey. destruct r as [[|]|e]; try (now rewrite Hcache).
      destruct Hcache as (line & _ & ->). unfold cache_set.
      now rewrite lookup_insert_ne.
    + now right.
Qed.

(** X9.  A route that a call has fetched and cached is not used once
    [CACHE_TIMEOUT] = 3600 seconds have passed: a call for the same
    coordinate pair then finds no entry and sends a request again. *)
Theorem expired_route_is_fetched_again `{Ext : Externals}
    (provider : RoutingRequest -> HttpResult)
    (t0 t : Z) (w w' : World) (self self' other : OptimalFuelRouter) :
  cache_get t0 (cache_key self) (cache w) = None ->
  get_route provider t0 w self = (Ok true, self', w') ->
  origin other = origin self ->
  destination other = destination self ->
  (t0 + 3600 <= t)%Z ->
  cache_get t (cache_key other) (cache w') = None
  /\ provider_calls (snd (get_route provider t w' other))
     = provider_calls w' ++ [routing_request other].
Proof.
  intros Hmiss Hrun Ho Hd Ht.
  pose proof (get_route_miss provider t0 w self Hmiss) as H.
  rewrite Hrun in H. destruct H as [_ (line & _ & Hcache)].
  assert (Hsame : cache_key other = cache_key self)
    by (unfold cache_key; rewrite Ho, Hd; reflexivity).
  assert (Hexp : cache_get t (cache_key other) (cache w') = None).
  { rewrite Hsame, Hcache. apply cache_get_set_expired. exact Ht. }
  split; [exact Hexp|].
  pose proof (get_route_miss provider t w' other Hexp) as H.
  destruct (get_route provider t w' other) as [[r2 self2] w2]. apply H.
Qed.

Lemma expired_route_is_fetched_again_witness :
  let self := init (0, 0) (0, 10) in
  cache_get 3600 (cache_key (Ext := equator) self) (cache world_after_fetch) = None
  /\ provider_calls
       (snd (get_route (Ext := equator) one_section_provider 3600 world_after_fetch self))
     = provider_calls world_after_fetch ++ [routing_request (Ext := equator) self].
Proof.
  intros self.
  apply (expired_route_is_fetched_again (Ext := equator) one_section_provider
           0 3600 empty_world world_after_fetch self fetched_router self);
    reflexivity || lia.
Defined.

(** X10.  A call that fetches a route uses the first route of the answer
    only.  It appends one segment per section of that route to the segments
    the router already holds, with the polyline of the section and its
    length in metres over 1609.34 as the distance, and sets the total
    distance to the sum of the distances of the segments it has appended:
    on a router that held no segment the distances of the segments sum to
    the total distance. *)
Theorem fetched_segments_follow_sections `{Ext : Externals}
    (provider : RoutingRequest -> HttpResult)
    (now : Z) (w w' : World) (self self' : OptimalFuelRouter) :
  cache_get now (cache_key self) (cache w) = None ->
  get_route provider now w self = (Ok true, self', w') ->
  exists status_code route0 others new,
    provider (routing_request self)
    = HttpResponse status_code (Some (mkRouteData (route0 :: others)))
    /\ route_segments self' = route_segments self ++ new
    /\ List.map RouteSegment.polyline new = List.map polyline (sections route0)
    /\ List.map RouteSegment.distance new
       = List.map (fun section => summary_length section / (160934 # 100))
           (sections route0)
    /\ total_distance self' == segments_distance new
    /\ (route_segments self = [] ->
        segments_distance (route_segments self') == total_distance self').
Proof.
  intros Hmiss. unfold get_route. rewrite Hmiss.
  destruct (provider (routing_request self)) as [|status body]; [discriminate|].
  destruct (is_error_status status); [discriminate|].
  destruct body as [[[|route0 others]]|]; simpl; try discriminate.
  destruct (process_sections _ _ _ _) as [segs [[coordinates current_distance]|e]] eqn:E;
    [|discriminate].
  destruct (LineString_init _) as [line|]; [|discriminate].
  intros [= <- <-]. simpl.
  destruct (process_sections_ok _ _ _ _ _ _ _ E) as (new & -> & Hp & Hd & Hsum).
  exists status, route0, others, new. repeat split; try assumption.
  - rewrite Hsum. lra.
  - intros ->. simpl. rewrite Hsum. lra.
Qed.

Lemma fetched_segments_follow_sections_witness :
  segments_distance (route_segments fetched_router) == 1000
  /\ exists status_code route0 others new,
       one_section_provider (routing_request (Ext := equator) (init (0, 0) (0, 10)))
       = HttpResponse status_code (Some (mkRouteData (route0 :: others)))
       /\ route_segments fetched_router = [] ++ new
       /\ List.map RouteSegment.polyline new = List.map polyline (sections route0)
       /\ List.map RouteSegment.distance new
          = List.map (fun section => summary_length section / (160934 # 100))
              (sections route0)
       /\ total_distance fetched_router == segments_distance new
       /\ ((@nil RouteSegment.t) = [] ->
           segments_distance (route_segments fetched_router)
           == total_distance fetched_router).
Proof.
  split; [reflexivity|].
  apply (fetched_segments_follow_sections (Ext := equator) one_section_provider
           0 empty_world world_after_fetch (init (0, 0) (0, 10)) fetched_router);
    reflexivity.
Defined.



(** X12.  With four valid coordinates and no cached route, a failure that
    [requests] reports (no connection, a 4xx or 5xx status, a body that is
    not JSON) makes the view answer "Could not calculate route" with status
    400, after one request and without a change to the cache. *)
Theorem provider_failure_is_answered_with_400 `{Ext : Externals}
    (provider : RoutingRequest -> HttpResult)
    (fuel : nat) (now : Z) (catalog : list FuelStation) (w : World)
    (olat olng dlat dlng : pyfloat) :
  let self := init (olat, olng) (dlat, dlng) in
  cache_get now (cache_key self) (cache w) = None ->
  (provider (routing_request self) = RequestFailed
   \/ (exists status body,
         provider (routing_request self) = HttpResponse status body
         /\ (is_error_status status = true \/ body = None))) ->
  get_optimal_route provider fuel now catalog w
    (Some olat) (Some olng) (Some dlat) (Some dlng)
  = Some (Ok (ErrorResponse "Could not calculate route" 400),
          mkWorld (cache w) (provider_calls w ++ [routing_request self])).
Proof.
  intros self Hmiss Hfail. unfold get_optimal_route. fold self.
  rewrite (get_route_request_failure provider now w self Hmiss Hfail).
  reflexivity.
Qed.

Lemma provider_failure_is_answered_with_400_witness :
  get_optimal_route (Ext := equator) (fun _ => HttpResponse 503 None) 0 0
    three_stations empty_world (Some 0) (Some 0) (Some 0) (Some 10)
  = Some (Ok (ErrorResponse "Could not calculate route" 400),
          mkWorld ∅ [routing_request (Ext := equator) (init (0, 0) (0, 10))]).
Proof.
  apply (provider_failure_is_answered_with_400 (Ext := equator)
           (fun _ => HttpResponse 503 None) 0 0 three_stations empty_world 0 0 0 10).
  - reflexivity.
  - right. exists 503%Z, None. split; [reflexivity|]. left. reflexivity.
Defined.

(** X13.  When the first route of the answer has no section and the line
    constructor builds the empty line from no point, [get_route] returns
    [True] and caches a route of distance 0 with the empty line; the
    planner then raises "Route not found" and the view answers with it and
    status 400.  For the next hour the same request is answered the same
    way from the cache, without a request to the provider. *)
Theorem route_without_sections_is_cached `{Ext : Externals}
    (provider : RoutingRequest -> HttpResult)
    (fuel : nat) (now : Z) (catalog : list FuelStation) (w : World)
    (olat olng dlat dlng : pyfloat) (status : Z) (others : list RouteJson)
    (line : LineString) :
  let self := init (olat, olng) (dlat, dlng) in
  let w' := mkWorld
              (cache_set now (cache_key self) (Route.mk [] 0 line)
                 CACHE_TIMEOUT (cache w))
              (provider_calls w ++ [routing_request self]) in
  cache_get now (cache_key self) (cache w) = None ->
  provider (routing_request self)
  = HttpResponse status (Some (mkRouteData (mkRouteJson [] :: others))) ->
  is_error_status status = false ->
  LineString_init [] = Some line ->
  coords line = [] ->
  get_optimal_route provider fuel now catalog w
    (Some olat) (Some olng) (Some dlat) (Some dlng)
  = Some (Ok (ErrorResponse "Route not found" 400), w')
  /\ forall t fuel', (t < now + 3600)%Z ->
       get_optimal_route provider fuel' t catalog w'
         (Some olat) (Some olng) (Some dlat) (Some dlng)
       = Some (Ok (ErrorResponse "Route not found" 400), w').
Proof.
  intros self w' Hmiss Hprov Hstatus Hline Hcoords.
  assert (Hnone : forall fuel' r,
            route_line r = Some line ->
            find_optimal_fuel_stops fuel' r catalog
            = Some (Raised (ValidationError "Route not found"))).
  { intros fuel' r Hr. unfold find_optimal_fuel_stops. rewrite Hr.
    simpl. rewrite Hcoords. reflexivity. }
  split.
  - unfold get_optimal_route, get_route. fold self.
    rewrite Hmiss, Hprov, Hstatus. simpl. rewrite Hline.
    rewrite Hnone by reflexivity. reflexivity.
  - intros t fuel' Ht. unfold get_optimal_route. fold self.
    rewrite (get_route_hit provider t w' self (Route.mk [] 0 line)).
    + rewrite Hnone by reflexivity. reflexivity.
    + unfold w'. simpl. apply cache_get_set_same. exact Ht.
Qed.

Lemma route_without_sections_is_cached_witness :
  get_optimal_route (Ext := equator) no_section_provider 0 0 three_stations
    empty_world (Some 0) (Some 0) (Some 0) (Some 10)
  = Some (Ok (ErrorResponse "Route not found" 400),
          mkWorld
            (cache_set 0 (cache_key (Ext := equator) (init (0, 0) (0, 10)))
               (Route.mk [] 0 (mkLineString [] 0 (fun _ => 0) (fun _ => mkPoint 0 0)))
               CACHE_TIMEOUT ∅)
            [routing_request (Ext := equator) (init (0, 0) (0, 10))]).
Proof.
  refine (proj1 (route_without_sections_is_cached (Ext := equator)
                   no_section_provider 0 0 three_stations empty_world 0 0 0 10
                   200 [] (mkLineString [] 0 (fun _ => 0) (fun _ => mkPoint 0 0))
                   _ _ _ _ _)); reflexivity.
Defined.

(** * Properties of the import command *)

Section ImportFacts.
Context `{T : ImportFuelStations.Text}.
Variable geocoder : string -> ImportFuelStations.GeocodeHttp.

Local Abbreviation handle_rows := (ImportFuelStations.handle_rows geocoder).
Local Abbreviation station_exists := ImportFuelStations.station_exists.
Local Abbreviation geocode_query := ImportFuelStations.geocode_query.

(** The values [_geocode_address] returns and the exceptions it raises. *)
Lemma geocode_address_cases row :
  match ImportFuelStations._geocode_address geocoder row with
  | (_, inl ImportFuelStations.AttributeError) =>
      geocoder (geocode_query row) = ImportFuelStations.NoResponse
      \/ exists status,
           is_error_status status = false
           /\ geocoder (geocode_query row) = ImportFuelStations.Response status None
  | (_, inl (ImportFuelStations.HTTPError status)) =>
      status = 429%Z
      /\ exists body,
           geocoder (geocode_query row) = ImportFuelStations.Response 429 body
  | (_, inl ImportFuelStations.InvalidOperation) => False
  | (_, inr None) =>
      exists status,
        (is_error_status status = true /\ status <> 429%Z
         /\ exists body,
              geocoder (geocode_query row) = ImportFuelStations.Response status body)
        \/ (is_error_status status = false
            /\ geocoder (geocode_query row)
               = ImportFuelStations.Response status (Some []))
  | (_, inr (Some (latitude, longitude))) =>
      exists status item others,
        is_error_status status = false
        /\ geocoder (geocode_query row)
           = ImportFuelStations.Response status (Some (item :: others))
        /\ latitude = ImportFuelStations.lat item
        /\ longitude = ImportFuelStations.lng item
  end.
Proof.
  unfold ImportFuelStations._geocode_address.
  destruct (geocoder (geocode_query row)) as [|status body] eqn:E; [now left|].
  destruct (is_error_status status) eqn:Es.
  - destruct (Z.eqb_spec status 429) as [->|Hne].
    + split; [reflexivity|]. now exists body.
    + exists status. left. repeat split; try assumption. now exists body.
  - destruct body as [[|item others]|].
    + exists status. right. split; [assumption | reflexivity].
    + exists status, item, others. repeat split; assumption.
    + right. exists status. split; [assumption | reflexivity].
Qed.

(** The stations saved and the exception do not depend on the row numbers
    or on what has been written. *)
Lemma handle_rows_saved_indep rows :
  forall db rc idx out rc' idx' out',
    fst (fst (handle_rows rc idx rows db out))
    = fst (fst (handle_rows rc' idx' rows db out'))
    /\ snd (handle_rows rc idx rows db out) = snd (handle_rows rc' idx' rows db out').
Proof.
  induction rows as [|row rows IH]; intros db rc idx out rc' idx' out'; simpl;
    [split; reflexivity|].
  destruct (station_exists db row); [apply IH|].
  destruct (ImportFuelStations._geocode_address geocoder row)
    as [written [e|[[latitude longitude]|]]]; simpl.
  - split; reflexivity.
  - destruct (ImportFuelStations.Decimal_of_string _); [apply IH | split; reflexivity].
  - apply IH.
Qed.

(** A run over two lists of rows, one after the other. *)
Lemma handle_rows_app before after :
  forall db rc idx out,
    handle_rows rc idx (before ++ after) db out
    = match handle_rows rc idx before db out with
      | (db1, out1, None) =>
          handle_rows rc (idx + Z.of_nat (List.length before)) after db1 out1
      | failed => failed
      end.
Proof.
  induction before as [|row before IH]; intros db rc idx out;
    cbn [List.app ImportFuelStations.handle_rows List.length].
  - now rewrite Z.add_0_r.
  - replace (idx + Z.of_nat (S (List.length before)))%Z
      with (idx + 1 + Z.of_nat (List.length before))%Z by lia.
    destruct (station_exists db row); [apply IH|].
    destruct (ImportFuelStations._geocode_address geocoder row)
      as [written [e|[[latitude longitude]|]]]; simpl.
    + reflexivity.
    + destruct (ImportFuelStations.Decimal_of_string _); [apply IH | reflexivity].
    + apply IH.
Qed.

(** The table only grows, by stations made from rows. *)
Lemma handle_rows_appends rows :
  forall db rc idx out,
    exists added,
      fst (fst (handle_rows rc idx rows db out)) = db ++ added
      /\ List.Forall
           (fun s => exists row price status item others,
              List.In row rows
              /\ is_error_status status = false
              /\ geocoder (geocode_query row)
                 = ImportFuelStations.Response status (Some (item :: others))
              /\ ImportFuelStations.Decimal_of_string
                   (ImportFuelStations.strip (ImportFuelStations.Retail_Price row))
                 = Some price
              /\ s = ImportFuelStations.station_of row price
                       (ImportFuelStations.lat item) (ImportFuelStations.lng item))
           added.
Proof.
  induction rows as [|row rows IH]; intros db rc idx out; simpl.
  - exists []. rewrite List.app_nil_r. split; constructor.
  - assert (Hweak : forall db0 rc0 idx0 out0, exists added,
              fst (fst (handle_rows rc0 idx0 rows db0 out0)) = db0 ++ added
              /\ List.Forall
                   (fun s => exists row0 price status item others,
                      List.In row0 (row :: rows)
                      /\ is_error_status status = false
                      /\ geocoder (geocode_query row0)
                         = ImportFuelStations.Response status (Some (item :: others))
                      /\ ImportFuelStations.Decimal_of_string
                           (ImportFuelStations.strip
                              (ImportFuelStations.Retail_Price row0))
                         = Some price
                      /\ s = ImportFuelStations.station_of row0 price
                               (ImportFuelStations.lat item)
                               (ImportFuelStations.lng item))
                   added).
    { intros db0 rc0 idx0 out0.
      destruct (IH db0 rc0 idx0 out0) as (added & Heq & Hall).
      exists added. split; [exact Heq|].
      eapply List.Forall_impl; [|exact Hall].
      intros s (row0 & price & status & item & others & Hin & H).
      exists row0, price, status, item, others. split; [now right | exact H]. }
    destruct (station_exists db row); [apply Hweak|].
    pose proof (geocode_address_cases row) as Hcases.
    destruct (ImportFuelStations._geocode_address geocoder row)
      as [written [e|[[latitude longitude]|]]]; simpl.
    + exists []. rewrite List.app_nil_r. split; constructor.
    + destruct (ImportFuelStations.Decimal_of_string _) as [price|] eqn:Ep.
      * destruct (Hweak (db ++ [ImportFuelStations.station_of row price latitude longitude])
                    rc (idx + 1)%Z
                    ((out ++ [ImportFuelStations.Processing idx (rc - idx - 1)])
                       ++ written
                       ++ [ImportFuelStations.Imported
                             (ImportFuelStations.station_of row price latitude longitude)]))
          as (added & Heq & Hall).
        eexists (_ :: added). rewrite Heq, <- List.app_assoc.
        split; [reflexivity|]. constructor; [|exact Hall].
        destruct Hcases as (status & item & others & Hs & Hg & -> & ->).
        exists row, price, status, item, others.
        repeat split; try assumption. now left.
      * exists []. rewrite List.app_nil_r. split; constructor.
    + apply Hweak.
Qed.

End ImportFacts.

Section ImportRuns.
Context `{T : ImportFuelStations.Text}.
Variable geocoder : string -> ImportFuelStations.GeocodeHttp.

Local Abbreviation handle_rows := (ImportFuelStations.handle_rows geocoder).
Local Abbreviation station_exists := ImportFuelStations.station_exists.




End ImportRuns.

(** X14.  The import never changes or removes a station of the table: it
    adds stations at the end, also when it ends with an exception.  Each
    station added is made from a row whose geocoding answer has a success
    status and at least one item: its texts are the stripped columns, its
    price is the [Decimal] of the stripped price column and its location is
    the point with the longitude of the first item as x and its latitude as
    y. *)
Theorem import_only_appends `{T : ImportFuelStations.Text}
    (geocoder : string -> ImportFuelStations.GeocodeHttp)
    (row_count : Z) (rows : list ImportFuelStations.CsvRow) (db : list FuelStation) :
  exists added,
    fst (fst (ImportFuelStations.handle geocoder row_count rows db)) = db ++ added
    /\ List.Forall
         (fun s => exists row price status item others,
            List.In row rows
            /\ is_error_status status = false
            /\ geocoder (ImportFuelStations.geocode_query row)
               = ImportFuelStations.Response status (Some (item :: others))
            /\ ImportFuelStations.Decimal_of_string
                 (ImportFuelStations.strip (ImportFuelStations.Retail_Price row))
               = Some price
            /\ s = mkFuelStation
                     (ImportFuelStations.strip (ImportFuelStations.Truckstop_Name row))
                     (ImportFuelStations.strip (ImportFuelStations.Address row))
                     (ImportFuelStations.strip (ImportFuelStations.City row))
                     (ImportFuelStations.strip (ImportFuelStations.State row))
                     price
                     (mkPoint (ImportFuelStations.lng item) (ImportFuelStations.lat item)))
         added.
Proof. apply handle_rows_appends. Qed.

(** X15.  An exception ends the import at the row that causes it: the
    stations of the rows before it are saved and no later row is looked at.
    For a row that is not in the table, a geocoding answer with status 429
    is raised again; a geocoding request that fails without a response, or
    a body that is not JSON, ends in the [AttributeError] of the handler;
    a price that is no number ends in [InvalidOperation]. *)
Theorem import_stops_at_the_failing_row `{T : ImportFuelStations.Text}
    (geocoder : string -> ImportFuelStations.GeocodeHttp)
    (row_count : Z) (before after : list ImportFuelStations.CsvRow)
    (row : ImportFuelStations.CsvRow) (db db1 : list FuelStation)
    (out1 : list ImportFuelStations.Output) :
  ImportFuelStations.handle geocoder row_count before db = (db1, out1, None) ->
  ImportFuelStations.station_exists db1 row = false ->
  let q := ImportFuelStations.geocode_query row in
  let index := Z.of_nat (List.length before) in
  let written :=
    out1 ++ [ImportFuelStations.Processing index (row_count - index - 1)]
         ++ [ImportFuelStations.Geocoding q] in
  let run := ImportFuelStations.handle geocoder row_count (before ++ row :: after) db in
  (forall body, geocoder q = ImportFuelStations.Response 429 body ->
     run = (db1, written, Some (ImportFuelStations.HTTPError 429)))
  /\ (geocoder q = ImportFuelStations.NoResponse
      \/ (exists status, is_error_status status = false
                         /\ geocoder q = ImportFuelStations.Response status None) ->
      run = (db1, written, Some ImportFuelStations.AttributeError))
  /\ (forall status item others,
        is_error_status status = false ->
        geocoder q = ImportFuelStations.Response status (Some (item :: others)) ->
        ImportFuelStations.Decimal_of_string
          (ImportFuelStations.strip (ImportFuelStations.Retail_Price row)) = None ->
        run = (db1, written, Some ImportFuelStations.InvalidOperation)).
Proof.
  intros Hbefore Hnew q index written run.
  assert (Hrun : run
                 = ImportFuelStations.handle_rows geocoder row_count index
                     (row :: after) db1 out1).
  { unfold run, ImportFuelStations.handle. rewrite handle_rows_app.
    unfold ImportFuelStations.handle in Hbefore. rewrite Hbefore. reflexivity. }
  rewrite Hrun. cbn [ImportFuelStations.handle_rows]. rewrite Hnew.
  unfold ImportFuelStations._geocode_address. fold q. unfold written.
  split; [|split].
  - intros body ->. simpl. rewrite <- List.app_assoc. reflexivity.
  - intros [->|(status & Hs & ->)]; [|rewrite Hs]; rewrite <- List.app_assoc;
      reflexivity.
  - intros status item others Hs -> Hp. rewrite Hs, Hp, <- List.app_assoc.
    reflexivity.
Qed.

Lemma import_stops_at_the_failing_row_witness :
  exists db1 out,
    ImportFuelStations.handle (T := plain_text) tulsa_geocoder 5
      ([row_a; row_padded; row_lost] ++ row_busy :: [row_a]) []
    = (db1, out, Some (ImportFuelStations.HTTPError 429))
    /\ List.map name db1 = ["Alpha Stop"; "Beta Stop"].
Proof.
  destruct (ImportFuelStations.handle (T := plain_text) tulsa_geocoder 5
              [row_a; row_padded; row_lost] []) as [[db1 out1] e1] eqn:E.
  assert (He : e1 = None /\ List.map name db1 = ["Alpha Stop"; "Beta Stop"]
               /\ ImportFuelStations.station_exists db1 row_busy = false).
  { vm_compute in E. injection E as <- _ <-. repeat split. }
  destruct He as (-> & Hnames & Hnew).
  destruct (import_stops_at_the_failing_row (T := plain_text) tulsa_geocoder 5
              [row_a; row_padded; row_lost] [row_a] row_busy [] db1 out1 E Hnew)
    as (H429 & _).
  eexists db1, _. split; [apply (H429 None); reflexivity | exact Hnames].
Defined.

(** X16.  A row whose geocoding gives an HTTP error other than 429, or an
    answer without items, is passed over: the stations that a run saves and
    the exception it may end with are those of the run over the file
    without that row. *)
Theorem ungeocoded_row_is_passed_over `{T : ImportFuelStations.Text}
    (geocoder : string -> ImportFuelStations.GeocodeHttp)
    (row_count row_count' : Z) (before after : list ImportFuelStations.CsvRow)
    (row : ImportFuelStations.CsvRow) (db : list FuelStation) :
  (exists status,
     (is_error_status status = true /\ status <> 429%Z
      /\ exists body, geocoder (ImportFuelStations.geocode_query row)
                      = ImportFuelStations.Response status body)
     \/ (is_error_status status = false
         /\ geocoder (ImportFuelStations.geocode_query row)
            = ImportFuelStations.Response status (Some []))) ->
  let with_row :=
    ImportFuelStations.handle geocoder row_count (before ++ row :: after) db in
  let without_row :=
    ImportFuelStations.handle geocoder row_count' (before ++ after) db in
  fst (fst with_row) = fst (fst without_row) /\ snd with_row = snd without_row.
Proof.
  intros Hskip with_row without_row.
  unfold with_row, without_row, ImportFuelStations.handle.
  rewrite !handle_rows_app.
  destruct (handle_rows_saved_indep geocoder before db row_count 0 [] row_count' 0 [])
    as [Hdb He].
  destruct (ImportFuelStations.handle_rows geocoder row_count 0 before db [])
    as [[db1 out1] e1].
  destruct (ImportFuelStations.handle_rows geocoder row_count' 0 before db [])
    as [[db1' out1'] e1'].
  simpl in Hdb, He. subst db1' e1'.
  destruct e1 as [e|]; [split; reflexivity|].
  cbn [ImportFuelStations.handle_rows].
  destruct (ImportFuelStations.station_exists db1 row);
    [apply handle_rows_saved_indep|].
  assert (Hg : exists written,
            ImportFuelStations._geocode_address geocoder row = (written, inr None)).
  { unfold ImportFuelStations._geocode_address.
    destruct Hskip as (status & [(Hs & Hne & body & ->)|(Hs & ->)]); rewrite Hs.
    - destruct (Z.eqb_spec status 429); [contradiction|]. eexists; reflexivity.
    - eexists; reflexivity. }
  destruct Hg as (written & ->). apply handle_rows_saved_indep.
Qed.

Lemma ungeocoded_row_is_passed_over_witness :
  let with_row :=
    ImportFuelStations.handle (T := plain_text) tulsa_geocoder 4
      ([row_a] ++ row_lost :: [row_padded]) [] in
  let without_row :=
    ImportFuelStations.handle (T := plain_text) tulsa_geocoder 3
      ([row_a] ++ [row_padded]) [] in
  List.length (fst (fst with_row)) = 2%nat
  /\ fst (fst with_row) = fst (fst without_row) /\ snd with_row = snd without_row.
Proof.
  intros with_row without_row. split; [reflexivity|].
  apply (ungeocoded_row_is_passed_over (T := plain_text) tulsa_geocoder 4 3
           [row_a] [row_padded] row_lost []).
  exists 200%Z. right. split; reflexivity.
Defined.



(** X18.  The duplicate test compares the columns as they are in the file
    with the stripped texts that were saved.  A row whose name carries
    surrounding white space is therefore not recognised after it has been
    imported: a second run saves the same station once more. *)
Theorem padded_row_is_imported_again `{T : ImportFuelStations.Text}
    (geocoder : string -> ImportFuelStations.GeocodeHttp)
    (row_count row_count' : Z) (row : ImportFuelStations.CsvRow)
    (db : list FuelStation) (status : Z)
    (item : ImportFuelStations.Position) (others : list ImportFuelStations.Position)
    (price : Decimal) :
  ImportFuelStations.strip (ImportFuelStations.Truckstop_Name row)
  <> ImportFuelStations.Truckstop_Name row ->
  ImportFuelStations.station_exists db row = false ->
  is_error_status status = false ->
  geocoder (ImportFuelStations.geocode_query row)
  = ImportFuelStations.Response status (Some (item :: others)) ->
  ImportFuelStations.Decimal_of_string
    (ImportFuelStations.strip (ImportFuelStations.Retail_Price row)) = Some price ->
  let station :=
    ImportFuelStations.station_of row price
      (ImportFuelStations.lat item) (ImportFuelStations.lng item) in
  fst (fst (ImportFuelStations.handle geocoder row_count [row] db)) = db ++ [station]
  /\ fst (fst (ImportFuelStations.handle geocoder row_count' [row] (db ++ [station])))
     = db ++ [station; station].
Proof.
  intros Hpad Hnew Hs Hg Hp station.
  assert (Hstill : ImportFuelStations.station_exists (db ++ [station]) row = false).
  { unfold ImportFuelStations.station_exists in *.
    rewrite List.existsb_app, Hnew. simpl.
    destruct (String.eqb_spec
                (ImportFuelStations.strip (ImportFuelStations.Truckstop_Name row))
                (ImportFuelStations.Truckstop_Name row)); [contradiction|].
    reflexivity. }
  unfold ImportFuelStations.handle. cbn [ImportFuelStations.handle_rows].
  rewrite Hnew, Hstill. unfold ImportFuelStations._geocode_address.
  rewrite Hg, Hs, Hp. simpl. split; [reflexivity|].
  now rewrite <- List.app_assoc.
Qed.

Lemma padded_row_is_imported_again_witness :
  let station := mkFuelStation "Beta Stop" "4 Main St" "Tulsa" "OK" 4 (mkPoint (-96) 36) in
  fst (fst (ImportFuelStations.handle (T := plain_text) tulsa_geocoder 2
              [row_padded] [])) = [] ++ [station]
  /\ fst (fst (ImportFuelStations.handle (T := plain_text) tulsa_geocoder 2
                 [row_padded] ([] ++ [station]))) = [] ++ [station; station].
Proof.
  intros station.
  apply (padded_row_is_imported_again (T := plain_text) tulsa_geocoder 2 2
           row_padded [] 200
           (ImportFuelStations.mkPosition 36 (-96))
           [ImportFuelStations.mkPosition 0 0] 4).
  - vm_compute. discriminate.
  - reflexivity.
  - reflexivity.
  - reflexivity.
  - reflexivity.
Defined.
